(** * NodPT: the OpenAI-compatible front end of [AI/src/serve_openai.py]

    A shallow embedding of the request handlers of [OpenAIHandler] and of
    the start-up code ([main], [run_server]), followed by the properties of
    the service's interface contract.

    Conventions of the embedding.
    - A Python [str] is the list of its Unicode code points ([pystr]);
      [u "..."] reads an ASCII literal of the source.
    - A value produced by [json.loads] is a [json]; a parsed object keeps
      its bindings in insertion order, as Python dictionaries do.
    - A Python exception is [Raise msg] in the [result] monad, where [msg]
      is what [str(e)] returns; the [try ... except Exception] of a handler
      is [catch_500].
    - [uuid.uuid4().hex] and [int(time.time())] are read from a [clock]
      that comes with each request. *)

From Stdlib Require Import List NArith ZArith Bool String Ascii Lia SpecFloat.
Import ListNotations.

Set Implicit Arguments.
Set Warnings "-register-all".

(** ** Python strings *)

Definition pystr : Type := list N.

Definition u (s : string) : pystr :=
  List.map N_of_ascii (list_ascii_of_string s).

Fixpoint str_eqb (s t : pystr) : bool :=
  match s, t with
  | [], [] => true
  | c :: s', d :: t' => N.eqb c d && str_eqb s' t'
  | _, _ => false
  end.

(** [str.isspace] on one code point: the characters whose bidirectional
    class is WS, B or S, or whose category is Zs. *)
Definition isspace (c : N) : bool :=
  ((9 <=? c) && (c <=? 13) || (28 <=? c) && (c <=? 32)
   || (c =? 133) || (c =? 160) || (c =? 5760)
   || (8192 <=? c) && (c <=? 8202)
   || (c =? 8232) || (c =? 8233) || (c =? 8239) || (c =? 8287)
   || (c =? 12288))%N.

(** [s.split()] without argument: the maximal runs of characters that are
    not whitespace, in order. [word] holds the current run, reversed. *)
Fixpoint split_from (word : pystr) (s : pystr) : list pystr :=
  match s with
  | [] => match word with [] => [] | _ => [rev word] end
  | c :: s' =>
      if isspace c then
        match word with
        | [] => split_from [] s'
        | _ => rev word :: split_from [] s'
        end
      else split_from (c :: word) s'
  end.

Definition split (s : pystr) : list pystr := split_from [] s.

Definition newline : string := String (ascii_of_nat 10) EmptyString.

(** [sep.join(parts)] *)
Fixpoint join (sep : pystr) (parts : list pystr) : pystr :=
  match parts with
  | [] => []
  | [p] => p
  | p :: rest => p ++ sep ++ join sep rest
  end.

(** [s[:n]] *)
Definition prefix (n : nat) (s : pystr) : pystr := firstn n s.

(** ** JSON values *)

Inductive json : Type :=
| JNull
| JBool (b : bool)
| JInt (z : Z)
| JFloat (f : spec_float)
| JStr (s : pystr)
| JList (items : list json)
| JDict (bindings : list (pystr * json)).

Definition dict : Type := list (pystr * json).

(** [d.get(key)], [None] when the key is absent. *)
Fixpoint dict_get (d : dict) (key : pystr) : option json :=
  match d with
  | [] => None
  | (k, v) :: d' => if str_eqb key k then Some v else dict_get d' key
  end.

(** [d.get(key, default)] *)
Definition get (d : dict) (key : pystr) (default : json) : json :=
  match dict_get d key with
  | Some v => v
  | None => default
  end.

(** [bool(v)], as [not v] and [if v] test it. *)
Definition truthy (v : json) : bool :=
  match v with
  | JNull => false
  | JBool b => b
  | JInt z => negb (z =? 0)%Z
  | JFloat (S754_zero _) => false
  | JFloat _ => true
  | JStr s => match s with [] => false | _ => true end
  | JList l => match l with [] => false | _ => true end
  | JDict d => match d with [] => false | _ => true end
  end.

(** [type(v).__name__] *)
Definition type_name (v : json) : pystr :=
  match v with
  | JNull => u "NoneType"
  | JBool _ => u "bool"
  | JInt _ => u "int"
  | JFloat _ => u "float"
  | JStr _ => u "str"
  | JList _ => u "list"
  | JDict _ => u "dict"
  end.

(** [v == 'literal'] *)
Definition eq_str (v : json) (s : pystr) : bool :=
  match v with
  | JStr t => str_eqb t s
  | _ => false
  end.

(** The float [1.0]. *)
Definition float_one : spec_float := S754_finite false 4503599627370496 (-52).

(** ** Exceptions *)

Inductive result (A : Type) : Type :=
| Ok (a : A)
| Raise (msg : pystr).

Arguments Ok {A} a.
Arguments Raise {A} msg.

Definition bind {A B : Type} (r : result A) (k : A -> result B) : result B :=
  match r with
  | Ok a => k a
  | Raise msg => Raise msg
  end.

Notation "x <- r ;; k" := (bind r (fun x => k))
  (at level 61, r at next level, right associativity).

(** [AttributeError] of [v.attr] on a value without that attribute. *)
Definition no_attribute {A : Type} (v : json) (attr : pystr) : result A :=
  Raise (u "'" ++ type_name v ++ u "' object has no attribute '" ++ attr ++ u "'").

(** [TypeError] of [for x in v] on a value that cannot be iterated. *)
Definition not_iterable {A : Type} (v : json) : result A :=
  Raise (u "'" ++ type_name v ++ u "' object is not iterable").

(** [request_data.get]: only a parsed object has the method. *)
Definition as_dict (v : json) : result dict :=
  match v with
  | JDict d => Ok d
  | _ => no_attribute v (u "get")
  end.

(** [len(v.split())]: only a string has the method. *)
Definition count_words (v : json) : result Z :=
  match v with
  | JStr s => Ok (Z.of_nat (List.length (split s)))
  | _ => no_attribute v (u "split")
  end.

(** The elements [for x in v] goes through: the items of a list, the
    characters of a string, the keys of an object. *)
Definition iterate (v : json) : result (list json) :=
  match v with
  | JList l => Ok l
  | JStr s => Ok (List.map (fun c => JStr [c]) s)
  | JDict d => Ok (List.map (fun kv => JStr (fst kv)) d)
  | _ => not_iterable v
  end.

(** ** The handler class and what it answers *)

(** The runner that line 254 would build, [ModelRunnerCpp.from_dir(engine_dir)]. *)
Inductive ModelRunner : Type :=
| ModelRunnerCpp_from_dir (engine_dir : pystr).

(** The class attributes of [OpenAIHandler]. *)
Record handler_class : Type := {
  model_runner : option ModelRunner;
  model_name : pystr
}.

Definition OpenAIHandler : handler_class :=
  {| model_runner := None; model_name := u "gpt-oss-20b" |}.

Record clock : Type := {
  uuid4_hex : pystr;
  time_now : Z
}.

Inductive response : Type :=
| SendJson (status : nat) (data : json)
| SendError (code : nat) (message : pystr).

(** [send_json_response(data)], with its default status. *)
Definition send_json_response (data : json) : response := SendJson 200 data.

(** [try: ... except Exception as e: self.send_error(500, ...)] *)
Definition catch_500 (body : result response) : response :=
  match body with
  | Ok r => r
  | Raise msg => SendError 500 (u "Internal server error: " ++ msg)
  end.

Definition placeholder_text : pystr :=
  u "[Model not loaded] This is a placeholder response. Please load a model to get actual completions.".

(** ** The handlers

    Two facts of the Python runtime stay parameters: how an f-string
    renders a value that is not a string ([str(v)], that is the [repr] of
    numbers and containers), and the message of the exception that
    [v[:50]] raises on a value that cannot be sliced. *)

Section Handlers.

Variable format_value : json -> pystr.
Variable slice_error : json -> pystr.

(** [f"{v}"] *)
Definition interpolate (v : json) : pystr :=
  match v with
  | JStr s => s
  | _ => format_value v
  end.

(** [generate_text]: the body of the [try] and its [except] branch.
    The annotation says [prompt: str]; a list can be sliced as well, any
    other value ends in the [except] branch. *)
Definition generate_text (prompt max_tokens temperature top_p : json) : pystr :=
  match prompt with
  | JStr s => u "[Generated response for: " ++ prefix 50 s ++ u "...]"
  | JList l =>
      u "[Generated response for: " ++ interpolate (JList (firstn 50 l)) ++ u "...]"
  | _ => u "[Error generating text: " ++ slice_error prompt ++ u "]"
  end.

Definition handle_root : response :=
  send_json_response (JDict [
    (u "name", JStr (u "TensorRT-LLM OpenAI-Compatible API"));
    (u "version", JStr (u "1.0.0"));
    (u "status", JStr (u "running"));
    (u "endpoints", JList [
      JStr (u "GET /v1/models");
      JStr (u "POST /v1/completions");
      JStr (u "POST /v1/chat/completions");
      JStr (u "GET /health")])]).

Definition handle_health (cls : handler_class) : response :=
  send_json_response (JDict [
    (u "status", JStr (u "healthy"));
    (u "model_loaded",
     JBool (match model_runner cls with None => false | Some _ => true end))]).

Definition handle_list_models (cls : handler_class) (clk : clock) : response :=
  send_json_response (JDict [
    (u "object", JStr (u "list"));
    (u "data", JList [
      JDict [
        (u "id", JStr (model_name cls));
        (u "object", JStr (u "model"));
        (u "created", JInt (time_now clk));
        (u "owned_by", JStr (u "tensorrt-llm"));
        (u "permission", JList []);
        (u "root", JStr (model_name cls));
        (u "parent", JNull)]])]).

(** [payload] is what lines 102-104 give: the parsed body, or the
    exception of [int], [decode] or [json.loads]. *)
Definition handle_completions (cls : handler_class) (clk : clock)
    (payload : result json) : response :=
  catch_500 (
    request_data <- payload ;;
    d <- as_dict request_data ;;
    let prompt := get d (u "prompt") (JStr []) in
    let max_tokens := get d (u "max_tokens") (JInt 100) in
    let temperature := get d (u "temperature") (JFloat float_one) in
    let top_p := get d (u "top_p") (JFloat float_one) in
    let n := get d (u "n") (JInt 1) in
    if negb (truthy prompt) then
      Ok (SendError 400 (u "Missing 'prompt' field"))
    else
      let completion_text :=
        match model_runner cls with
        | None => placeholder_text
        | Some _ => generate_text prompt max_tokens temperature top_p
        end in
      prompt_tokens <- count_words prompt ;;
      completion_tokens <- count_words (JStr completion_text) ;;
      Ok (send_json_response (JDict [
        (u "id", JStr (u "cmpl-" ++ uuid4_hex clk));
        (u "object", JStr (u "text_completion"));
        (u "created", JInt (time_now clk));
        (u "model", JStr (model_name cls));
        (u "choices", JList [
          JDict [
            (u "text", JStr completion_text);
            (u "index", JInt 0);
            (u "logprobs", JNull);
            (u "finish_reason", JStr (u "length"))]]);
        (u "usage", JDict [
          (u "prompt_tokens", JInt prompt_tokens);
          (u "completion_tokens", JInt completion_tokens);
          (u "total_tokens", JInt (prompt_tokens + completion_tokens))])]))).

(** One turn of the loop of [messages_to_prompt]. *)
Definition append_part (prompt_parts : list pystr) (msg : json) : result (list pystr) :=
  m <- as_dict msg ;;
  let role := get m (u "role") (JStr (u "user")) in
  let content := get m (u "content") (JStr []) in
  if eq_str role (u "system") then
    Ok (prompt_parts ++ [u "System: " ++ interpolate content])
  else if eq_str role (u "user") then
    Ok (prompt_parts ++ [u "User: " ++ interpolate content])
  else if eq_str role (u "assistant") then
    Ok (prompt_parts ++ [u "Assistant: " ++ interpolate content])
  else Ok prompt_parts.

(** [for msg in msgs: ...], from the parts collected so far. *)
Fixpoint for_each_message (msgs : list json) (prompt_parts : list pystr)
    : result (list pystr) :=
  match msgs with
  | [] => Ok prompt_parts
  | msg :: rest =>
      parts <- append_part prompt_parts msg ;;
      for_each_message rest parts
  end.

Definition messages_to_prompt (messages : json) : result pystr :=
  msgs <- iterate messages ;;
  prompt_parts <- for_each_message msgs [] ;;
  let prompt_parts := prompt_parts ++ [u "Assistant:"] in
  Ok (join (u newline) prompt_parts).

Definition handle_chat_completions (cls : handler_class) (clk : clock)
    (payload : result json) : response :=
  catch_500 (
    request_data <- payload ;;
    d <- as_dict request_data ;;
    let messages := get d (u "messages") (JList []) in
    let max_tokens := get d (u "max_tokens") (JInt 100) in
    let temperature := get d (u "temperature") (JFloat float_one) in
    let top_p := get d (u "top_p") (JFloat float_one) in
    if negb (truthy messages) then
      Ok (SendError 400 (u "Missing 'messages' field"))
    else
      prompt <- messages_to_prompt messages ;;
      let completion_text :=
        match model_runner cls with
        | None => placeholder_text
        | Some _ => generate_text (JStr prompt) max_tokens temperature top_p
        end in
      prompt_tokens <- count_words (JStr prompt) ;;
      completion_tokens <- count_words (JStr completion_text) ;;
      Ok (send_json_response (JDict [
        (u "id", JStr (u "chatcmpl-" ++ uuid4_hex clk));
        (u "object", JStr (u "chat.completion"));
        (u "created", JInt (time_now clk));
        (u "model", JStr (model_name cls));
        (u "choices", JList [
          JDict [
            (u "index", JInt 0);
            (u "message", JDict [
              (u "role", JStr (u "assistant"));
              (u "content", JStr completion_text)]);
            (u "finish_reason", JStr (u "length"))]]);
        (u "usage", JDict [
          (u "prompt_tokens", JInt prompt_tokens);
          (u "completion_tokens", JInt completion_tokens);
          (u "total_tokens", JInt (prompt_tokens + completion_tokens))])]))).

(** ** Routing

    [path] is [urlparse(self.path).path]. The base class answers the
    methods other than GET and POST itself. *)

Inductive command : Type := GET | POST.

Record request : Type := {
  req_command : command;
  req_path : pystr;
  req_payload : result json
}.

Definition do_GET (cls : handler_class) (clk : clock) (path : pystr) : response :=
  if str_eqb path (u "/v1/models") then handle_list_models cls clk
  else if str_eqb path (u "/health") then handle_health cls
  else if str_eqb path (u "/") then handle_root
  else SendError 404 (u "Not Found").

Definition do_POST (cls : handler_class) (clk : clock) (path : pystr)
    (payload : result json) : response :=
  if str_eqb path (u "/v1/completions") then handle_completions cls clk payload
  else if str_eqb path (u "/v1/chat/completions") then
    handle_chat_completions cls clk payload
  else SendError 404 (u "Not Found").

(** One request: the answer, and the class attributes as the handler
    leaves them. No handler assigns to [self] or to the class. *)
Definition handle_one_request (cls : handler_class) (clk : clock) (req : request)
    : handler_class * response :=
  match req_command req with
  | GET => (cls, do_GET cls clk (req_path req))
  | POST => (cls, do_POST cls clk (req_path req) (req_payload req))
  end.

(** [httpd.serve_forever()] over the requests that arrive before the
    server is stopped. *)
Fixpoint serve_forever (cls : handler_class) (reqs : list (clock * request))
    : handler_class * list response :=
  match reqs with
  | [] => (cls, [])
  | (clk, req) :: rest =>
      let (cls1, resp) := handle_one_request cls clk req in
      let (cls2, resps) := serve_forever cls1 rest in
      (cls2, resp :: resps)
  end.

End Handlers.

(** ** Start-up *)

(** The options given on the command line. *)
Record command_line : Type := {
  opt_host : option pystr;
  opt_port : option Z;
  opt_engine_dir : option pystr;
  opt_model_dir : option pystr;
  opt_model_name : option pystr
}.

(** The namespace [parser.parse_args()] returns. *)
Record arguments : Type := {
  args_host : pystr;
  args_port : Z;
  args_engine_dir : option pystr;
  args_model_dir : option pystr;
  args_model_name : pystr
}.

Definition or_default {A : Type} (o : option A) (default : A) : A :=
  match o with
  | Some a => a
  | None => default
  end.

Definition parse_args (cl : command_line) : arguments :=
  {| args_host := or_default (opt_host cl) (u "0.0.0.0");
     args_port := or_default (opt_port cl) 8000%Z;
     args_engine_dir := opt_engine_dir cl;
     args_model_dir := opt_model_dir cl;
     args_model_name := or_default (opt_model_name cl) (u "gpt-oss-20b") |}.

(** [run_server] up to [serve_forever]: the class attributes the server
    starts with. [path_exists] is [os.path.exists]. The assignment of
    line 254 is a comment, so the [try] only prints. *)
Definition run_server (path_exists : pystr -> bool) (cls : handler_class)
    (host : pystr) (port : Z) (engine_dir model_dir : option pystr) : handler_class :=
  match engine_dir with
  | Some dir =>
      if match dir with [] => false | _ => true end && path_exists dir
      then cls
      else cls
  | None => cls
  end.

Definition main (path_exists : pystr -> bool) (cl : command_line) : handler_class :=
  let args := parse_args cl in
  let cls := {| model_runner := model_runner OpenAIHandler;
                model_name := args_model_name args |} in
  run_server path_exists cls (args_host args) (args_port args)
    (args_engine_dir args) (args_model_dir args).

(** The whole run: start-up, then the requests. *)
Definition run (format_value slice_error : json -> pystr)
    (path_exists : pystr -> bool) (cl : command_line)
    (reqs : list (clock * request)) : handler_class * list response :=
  serve_forever format_value slice_error (main path_exists cl) reqs.

(** ** Reading a reply *)

(** [v[key]] *)
Definition field (v : json) (key : pystr) : option json :=
  match v with
  | JDict d => dict_get d key
  | _ => None
  end.

(** [v[i]] *)
Definition item (v : json) (i : nat) : option json :=
  match v with
  | JList l => nth_error l i
  | _ => None
  end.

Definition and_then {A B : Type} (o : option A) (f : A -> option B) : option B :=
  match o with
  | Some a => f a
  | None => None
  end.

(** [data["usage"][key]] *)
Definition usage (data : json) (key : pystr) : option json :=
  and_then (field data (u "usage")) (fun us => field us key).

(** [data["choices"][0]["text"]] *)
Definition completion_text_of (data : json) : option json :=
  and_then (field data (u "choices")) (fun cs =>
  and_then (item cs 0) (fun c => field c (u "text"))).

(** [data["choices"][0]["message"]["content"]] *)
Definition chat_content_of (data : json) : option json :=
  and_then (field data (u "choices")) (fun cs =>
  and_then (item cs 0) (fun c =>
  and_then (field c (u "message")) (fun m => field m (u "content")))).

(** The number [len(s.split())]. *)
Definition word_count (s : pystr) : Z := Z.of_nat (List.length (split s)).

(** ** Vocabulary of the contract *)

(** The number of whitespace-separated words of a string, counted
    without cutting it: a word starts at each character that is not
    whitespace and that opens the string or follows whitespace.
    [after_space] tells whether the character before was whitespace, or
    that there is none. *)
Fixpoint word_starts (after_space : bool) (s : pystr) : nat :=
  match s with
  | [] => 0
  | c :: s' =>
      if isspace c then word_starts true s'
      else (if after_space then 1 else 0) + word_starts false s'
  end.

Definition number_of_words (s : pystr) : nat := word_starts true s.

(** A word: not empty, and free of whitespace. *)
Definition is_word (w : pystr) : Prop :=
  w <> [] /\ Forall (fun c => isspace c = false) w.

(** The status line of an answer. *)
Definition status_of (r : response) : nat :=
  match r with
  | SendJson status _ => status
  | SendError code _ => code
  end.

(** ** Optional parameters *)



(** ** Chat messages *)

Inductive role : Type := System | User | Assistant.

Definition role_name (r : role) : pystr :=
  match r with
  | System => u "system"
  | User => u "user"
  | Assistant => u "assistant"
  end.

Definition role_label (r : role) : pystr :=
  match r with
  | System => u "System: "
  | User => u "User: "
  | Assistant => u "Assistant: "
  end.

(** [msg] is an object with the given role and the given text content. *)
Definition is_message (msg : json) (r : role) (content : pystr) : Prop :=
  exists d, msg = JDict d /\
            dict_get d (u "role") = Some (JStr (role_name r)) /\
            dict_get d (u "content") = Some (JStr content).

(** A role that is none of the three the loop knows. *)
Definition unknown_role (r : json) : Prop :=
  r <> JStr (u "system") /\ r <> JStr (u "user") /\ r <> JStr (u "assistant").

(** [msg] is an object whose role is present and unknown. *)
Definition dropped (msg : json) : Prop :=
  exists d r, msg = JDict d /\ dict_get d (u "role") = Some r /\ unknown_role r.

(** The text both handlers send for a prompt that is a string. *)
Definition reply_text (cls : handler_class) (prompt : pystr) : pystr :=
  match model_runner cls with
  | None => placeholder_text
  | Some _ => u "[Generated response for: " ++ prefix 50 prompt ++ u "...]"
  end.

(** What a reply must look like while no model runner is set. *)
Definition answered_without_model (req : request) (resp : response) : Prop :=
  (req_command req = GET -> req_path req = u "/health" ->
   resp = SendJson 200 (JDict [(u "status", JStr (u "healthy"));
                               (u "model_loaded", JBool false)]))
  /\
  (req_command req = POST -> req_path req = u "/v1/completions" ->
   forall data, resp = SendJson 200 data ->
   completion_text_of data = Some (JStr placeholder_text))
  /\
  (req_command req = POST -> req_path req = u "/v1/chat/completions" ->
   forall data, resp = SendJson 200 data ->
   chat_content_of data = Some (JStr placeholder_text)).

(** The payload of an answer, [null] for an error. *)
Definition payload_of (r : response) : json :=
  match r with
  | SendJson _ data => data
  | SendError _ _ => JNull
  end.

(** ** Sample inputs *)

(** A rendering of the values that are not strings, for the examples:
    [None], [True] and [False] as Python prints them, the type name for
    the rest. *)
Definition sample_format (v : json) : pystr :=
  match v with
  | JNull => u "None"
  | JBool true => u "True"
  | JBool false => u "False"
  | _ => u "<" ++ type_name v ++ u ">"
  end.

Definition sample_slice_error (v : json) : pystr :=
  u "'" ++ type_name v ++ u "' object is not subscriptable".

(** The class as line 254 would leave it, were it not a comment. *)
Definition sample_loaded_class : handler_class :=
  {| model_runner := Some (ModelRunnerCpp_from_dir (u "/engines/gpt-oss"));
     model_name := u "gpt-oss-20b" |}.

Definition sample_clock : clock :=
  {| uuid4_hex := u "9f1c2ab4"; time_now := 1700000000 |}.

(** [{"prompt": "Hello world"}] *)
Definition sample_completion_request : dict :=
  [(u "prompt", JStr (u "Hello world"))].

(** The two messages of the example of the specification. *)
Definition sample_messages : list json :=
  [JDict [(u "role", JStr (u "system")); (u "content", JStr (u "Be terse."))];
   JDict [(u "role", JStr (u "user")); (u "content", JStr (u "Hi"))]].

Definition sample_chat_request : dict :=
  [(u "messages", JList sample_messages)].

(** A message with a role the loop does not know. *)
Definition sample_tool_message : json :=
  JDict [(u "role", JStr (u "tool")); (u "content", JStr (u "42"))].

Definition sample_command_line : command_line :=
  {| opt_host := None; opt_port := None;
     opt_engine_dir := Some (u "/engines/gpt-oss");
     opt_model_dir := None; opt_model_name := None |}.

Definition sample_requests : list (clock * request) :=
  [(sample_clock,
    {| req_command := GET; req_path := u "/health"; req_payload := Raise [] |});
   (sample_clock,
    {| req_command := GET; req_path := u "/v1/models"; req_payload := Raise [] |});
   (sample_clock,
    {| req_command := POST; req_path := u "/v1/completions";
       req_payload := Ok (JDict sample_completion_request) |});
   (sample_clock,
    {| req_command := POST; req_path := u "/v1/chat/completions";
       req_payload := Ok (JDict sample_chat_request) |})].

(** ** Vocabulary of the further properties *)

(** A parsed JSON object, the only value with a [get] method. *)
Definition is_object (v : json) : bool :=
  match v with
  | JDict _ => true
  | _ => false
  end.

(** The role a message speaks with in the flattened prompt: user when
    the key is absent, none when the role is not one of the three. *)
Definition speaker (d : dict) : option role :=
  match dict_get d (u "role") with
  | None => Some User
  | Some (JStr r) =>
      if str_eqb r (u "system") then Some System
      else if str_eqb r (u "user") then Some User
      else if str_eqb r (u "assistant") then Some Assistant
      else None
  | Some _ => None
  end.

(** The lines the messages give, one for each message that speaks. *)
Definition lines_of (format_value : json -> pystr) (ds : list dict) : list pystr :=
  flat_map (fun d =>
    match speaker d with
    | Some r => [role_label r ++ interpolate format_value (get d (u "content") (JStr []))]
    | None => []
    end) ds.

(** The paths each method serves. *)
Definition get_routes : list pystr := [u "/v1/models"; u "/health"; u "/"].
Definition post_routes : list pystr := [u "/v1/completions"; u "/v1/chat/completions"].

(** The entries of the [endpoints] list that [GET /] sends. *)
Definition advertised_endpoints : list json :=
  match field (payload_of handle_root) (u "endpoints") with
  | Some (JList entries) => entries
  | _ => []
  end.

(** The words the messages bring to the flattened prompt: for each
    message that speaks, its label and the words of its content. *)
Definition spoken_words (format_value : json -> pystr) (ds : list dict) : nat :=
  list_sum (List.map (fun d =>
    match speaker d with
    | Some _ =>
        1 + number_of_words (interpolate format_value (get d (u "content") (JStr [])))
    | None => 0
    end) ds).

(** ** The handlers over any [generate_text]

    Both handlers call [self.generate_text], which Python looks up on
    the instance, so a subclass may define its own. These are the two
    handlers with that method left open; with [generate_text] itself
    they are [handle_completions] and [handle_chat_completions]. *)

Section OpenGenerator.

Variable format_value : json -> pystr.
Variable generate : json -> json -> json -> json -> pystr.

Definition handle_completions_with (cls : handler_class) (clk : clock)
    (payload : result json) : response :=
  catch_500 (
    request_data <- payload ;;
    d <- as_dict request_data ;;
    let prompt := get d (u "prompt") (JStr []) in
    let max_tokens := get d (u "max_tokens") (JInt 100) in
    let temperature := get d (u "temperature") (JFloat float_one) in
    let top_p := get d (u "top_p") (JFloat float_one) in
    let n := get d (u "n") (JInt 1) in
    if negb (truthy prompt) then
      Ok (SendError 400 (u "Missing 'prompt' field"))
    else
      let completion_text :=
        match model_runner cls with
        | None => placeholder_text
        | Some _ => generate prompt max_tokens temperature top_p
        end in
      prompt_tokens <- count_words prompt ;;
      completion_tokens <- count_words (JStr completion_text) ;;
      Ok (send_json_response (JDict [
        (u "id", JStr (u "cmpl-" ++ uuid4_hex clk));
        (u "object", JStr (u "text_completion"));
        (u "created", JInt (time_now clk));
        (u "model", JStr (model_name cls));
        (u "choices", JList [
          JDict [
            (u "text", JStr completion_text);
            (u "index", JInt 0);
            (u "logprobs", JNull);
            (u "finish_reason", JStr (u "length"))]]);
        (u "usage", JDict [
          (u "prompt_tokens", JInt prompt_tokens);
          (u "completion_tokens", JInt completion_tokens);
          (u "total_tokens", JInt (prompt_tokens + completion_tokens))])]))).


End OpenGenerator.

(** A [generate_text] that tells its [max_tokens], for the examples. *)
Definition sample_generate (prompt max_tokens temperature top_p : json) : pystr :=
  match max_tokens with
  | JInt 100 => u "[up to a hundred tokens]"
  | _ => u "[another length]"
  end.

(** * Properties *)

Local Open Scope list_scope.

(** ** Strings, objects and the exception monad *)

Lemma str_eqb_refl (s : pystr) : str_eqb s s = true.
Proof.
  induction s as [|c s IH]; simpl; [reflexivity|].
  now rewrite N.eqb_refl, IH.
Qed.

Lemma str_eqb_eq (s t : pystr) : str_eqb s t = true <-> s = t.
Proof.
  split.
  - revert t; induction s as [|c s IH]; intros [|d t]; simpl; try discriminate.
    + reflexivity.
    + intros H. apply andb_true_iff in H as [Hc Hs].
      apply N.eqb_eq in Hc. apply IH in Hs. now subst.
  - intros ->. apply str_eqb_refl.
Qed.

Lemma str_eqb_neq (s t : pystr) : s <> t -> str_eqb s t = false.
Proof.
  intros Hne. destruct (str_eqb s t) eqn:E; [|reflexivity].
  apply str_eqb_eq in E. contradiction.
Qed.

Lemma get_present (d : dict) (key : pystr) (default v : json) :
  dict_get d key = Some v -> get d key default = v.
Proof. unfold get. now intros ->. Qed.

Lemma get_absent (d : dict) (key : pystr) (default : json) :
  dict_get d key = None -> get d key default = default.
Proof. unfold get. now intros ->. Qed.

Lemma truthy_str (v : json) :
  truthy v = true -> forall n, count_words v = Ok n ->
  exists p, v = JStr p /\ p <> [] /\ n = word_count p.
Proof.
  intros Ht n Hn. destruct v; try discriminate Hn.
  simpl in Hn. injection Hn as <-.
  exists s. repeat split. intros ->. discriminate Ht.
Qed.

Lemma str_or_not (v : json) : (exists p, v = JStr p) \/ (forall p, v <> JStr p).
Proof. destruct v; solve [right; discriminate | left; eexists; reflexivity]. Qed.

(** A truthy value returned over a falsy default was stored. *)
Lemma get_truthy (d : dict) (key : pystr) (default : json) :
  truthy default = false -> truthy (get d key default) = true ->
  dict_get d key = Some (get d key default).
Proof.
  unfold get. destruct (dict_get d key) as [v|]; [reflexivity|].
  intros -> H. discriminate H.
Qed.

(** ** Splitting on whitespace *)

Lemma split_from_length (s word : pystr) :
  List.length (split_from word s) =
  match word with
  | [] => word_starts true s
  | _ => S (word_starts false s)
  end.
Proof.
  revert word. induction s as [|c s IH]; intros word.
  - destruct word; reflexivity.
  - cbn [split_from word_starts]. destruct (isspace c).
    + destruct word; cbn [List.length]; now rewrite IH.
    + rewrite IH. destruct word; reflexivity.
Qed.

Lemma word_count_spec (s : pystr) : word_count s = Z.of_nat (number_of_words s).
Proof. unfold word_count, split. now rewrite split_from_length. Qed.

Lemma is_word_rev (c : N) (word : pystr) :
  isspace c = false -> Forall (fun c => isspace c = false) word ->
  is_word (rev (c :: word)).
Proof.
  intros Hc Hw. split.
  - cbn [rev]. intros H. now apply app_eq_nil in H as [_ H].
  - apply Forall_rev. now constructor.
Qed.

(** [split] cuts the string into words and loses nothing but whitespace. *)
Lemma split_from_words (s word : pystr) :
  Forall (fun c => isspace c = false) word ->
  Forall is_word (split_from word s) /\
  List.concat (split_from word s) =
  rev word ++ filter (fun c => negb (isspace c)) s.
Proof.
  revert word. induction s as [|c s IH]; intros word Hw.
  - cbn [split_from filter]. destruct word as [|d word].
    + split; [constructor | reflexivity].
    + inversion Hw; subst. split.
      * constructor; [now apply is_word_rev | constructor].
      * cbn [List.concat]. reflexivity.
  - cbn [split_from filter]. destruct (isspace c) eqn:Hc; cbn [negb].
    + destruct (IH [] (Forall_nil _)) as [Hall Hcat].
      destruct word as [|d word]; [now split|].
      inversion Hw; subst. split.
      * constructor; [now apply is_word_rev | exact Hall].
      * cbn [List.concat]. now rewrite Hcat.
    + destruct (IH (c :: word)) as [Hall Hcat]; [now constructor|].
      split; [exact Hall|].
      rewrite Hcat. cbn [rev]. now rewrite <- app_assoc.
Qed.

Lemma split_words (s : pystr) :
  Forall is_word (split s) /\
  List.concat (split s) = filter (fun c => negb (isspace c)) s.
Proof. apply (split_from_words s (Forall_nil _)). Qed.

(** ** Optional parameters *)






(** ** Flattening the messages *)

Lemma eq_str_neq (v : json) (s : pystr) : v <> JStr s -> eq_str v s = false.
Proof.
  destruct v; try reflexivity. intros Hne. simpl.
  apply str_eqb_neq. intros ->. now apply Hne.
Qed.

Section Flattening.

Variable format_value : json -> pystr.

Lemma append_part_message (parts : list pystr) (msg : json) (r : role) (c : pystr) :
  is_message msg r c ->
  append_part format_value parts msg = Ok (parts ++ [role_label r ++ c]).
Proof.
  intros (d & -> & Hr & Hc). unfold append_part. cbn [bind as_dict].
  rewrite (get_present _ _ _ Hr), (get_present _ _ _ Hc).
  destruct r; reflexivity.
Qed.

Lemma append_part_dropped (parts : list pystr) (msg : json) :
  dropped msg -> append_part format_value parts msg = Ok parts.
Proof.
  intros (d & r & -> & Hr & Hs & Hu & Ha). unfold append_part.
  cbn [bind as_dict]. rewrite (get_present _ _ _ Hr).
  now rewrite (eq_str_neq Hs), (eq_str_neq Hu), (eq_str_neq Ha).
Qed.

Lemma for_each_message_app (l1 l2 : list json) (parts : list pystr) :
  for_each_message format_value (l1 ++ l2) parts =
  bind (for_each_message format_value l1 parts)
       (for_each_message format_value l2).
Proof.
  revert parts. induction l1 as [|msg l1 IH]; intros parts; [reflexivity|].
  cbn [app for_each_message].
  destruct (append_part format_value parts msg) as [parts'|e]; cbn [bind];
    [apply IH | reflexivity].
Qed.

Lemma for_each_message_messages (msgs : list json) (entries : list (role * pystr)) :
  Forall2 (fun msg e => is_message msg (fst e) (snd e)) msgs entries ->
  forall parts,
    for_each_message format_value msgs parts =
    Ok (parts ++ List.map (fun e => role_label (fst e) ++ snd e) entries).
Proof.
  induction 1 as [|msg e msgs entries Hm _ IH]; intros parts; cbn [for_each_message List.map].
  - now rewrite app_nil_r.
  - rewrite (append_part_message parts Hm). cbn [bind].
    rewrite IH, <- app_assoc. reflexivity.
Qed.

Lemma for_each_message_dropped (msgs : list json) (parts : list pystr) :
  Forall dropped msgs -> for_each_message format_value msgs parts = Ok parts.
Proof.
  induction 1 as [|msg msgs Hd _ IH]; cbn [for_each_message]; [reflexivity|].
  rewrite (append_part_dropped parts Hd). exact IH.
Qed.

End Flattening.

(** ** The two completion handlers, when they answer with a payload *)

Section HandlerFacts.

Variable format_value : json -> pystr.
Variable slice_error : json -> pystr.

Lemma handle_completions_str (cls : handler_class) (clk : clock) (d : dict) (p : pystr) :
  dict_get d (u "prompt") = Some (JStr p) -> p <> [] ->
  handle_completions format_value slice_error cls clk (Ok (JDict d)) =
  SendJson 200 (JDict [
    (u "id", JStr (u "cmpl-" ++ uuid4_hex clk));
    (u "object", JStr (u "text_completion"));
    (u "created", JInt (time_now clk));
    (u "model", JStr (model_name cls));
    (u "choices", JList [
      JDict [
        (u "text", JStr (reply_text cls p));
        (u "index", JInt 0);
        (u "logprobs", JNull);
        (u "finish_reason", JStr (u "length"))]]);
    (u "usage", JDict [
      (u "prompt_tokens", JInt (word_count p));
      (u "completion_tokens", JInt (word_count (reply_text cls p)));
      (u "total_tokens", JInt (word_count p + word_count (reply_text cls p)))])]).
Proof.
  intros Hp Hne. unfold handle_completions.
  cbn [bind as_dict catch_500].
  rewrite (get_present _ _ _ Hp).
  destruct p as [|c p]; [contradiction|].
  unfold reply_text, word_count.
  destruct (model_runner cls);
    cbn [truthy negb generate_text count_words bind catch_500];
    reflexivity.
Qed.

Lemma handle_completions_inv (cls : handler_class) (clk : clock)
    (payload : result json) (status : nat) (data : json) :
  handle_completions format_value slice_error cls clk payload = SendJson status data ->
  exists d p, payload = Ok (JDict d) /\
              dict_get d (u "prompt") = Some (JStr p) /\ p <> [].
Proof.
  unfold handle_completions. intros H.
  destruct payload as [request_data|msg]; [|discriminate H].
  destruct request_data; try discriminate H.
  cbn [bind as_dict catch_500] in H.
  destruct (truthy (get bindings (u "prompt") (JStr []))) eqn:Ht;
    [|discriminate H].
  pose proof (get_truthy bindings (u "prompt") (JStr []) eq_refl Ht) as Hg.
  cbn [negb] in H.
  destruct (count_words (get bindings (u "prompt") (JStr []))) as [n|msg] eqn:Hc;
    [|discriminate H].
  destruct (truthy_str _ Ht Hc) as (p & Hp & Hne & _).
  exists bindings, p. rewrite Hp in Hg. auto.
Qed.

Lemma handle_chat_completions_prompt (cls : handler_class) (clk : clock)
    (d : dict) (messages : json) (p : pystr) :
  dict_get d (u "messages") = Some messages -> truthy messages = true ->
  messages_to_prompt format_value messages = Ok p ->
  handle_chat_completions format_value slice_error cls clk (Ok (JDict d)) =
  SendJson 200 (JDict [
    (u "id", JStr (u "chatcmpl-" ++ uuid4_hex clk));
    (u "object", JStr (u "chat.completion"));
    (u "created", JInt (time_now clk));
    (u "model", JStr (model_name cls));
    (u "choices", JList [
      JDict [
        (u "index", JInt 0);
        (u "message", JDict [
          (u "role", JStr (u "assistant"));
          (u "content", JStr (reply_text cls p))]);
        (u "finish_reason", JStr (u "length"))]]);
    (u "usage", JDict [
      (u "prompt_tokens", JInt (word_count p));
      (u "completion_tokens", JInt (word_count (reply_text cls p)));
      (u "total_tokens", JInt (word_count p + word_count (reply_text cls p)))])]).
Proof.
  intros Hm Ht Hp. unfold handle_chat_completions.
  cbn [bind as_dict catch_500].
  rewrite (get_present _ _ _ Hm), Ht, Hp.
  unfold reply_text, word_count.
  destruct (model_runner cls);
    cbn [negb generate_text count_words bind catch_500];
    reflexivity.
Qed.

Lemma handle_chat_completions_inv (cls : handler_class) (clk : clock)
    (payload : result json) (status : nat) (data : json) :
  handle_chat_completions format_value slice_error cls clk payload = SendJson status data ->
  exists d messages p, payload = Ok (JDict d) /\
    dict_get d (u "messages") = Some messages /\ truthy messages = true /\
    messages_to_prompt format_value messages = Ok p.
Proof.
  unfold handle_chat_completions. intros H.
  destruct payload as [request_data|msg]; [|discriminate H].
  destruct request_data; try discriminate H.
  cbn [bind as_dict catch_500] in H.
  destruct (truthy (get bindings (u "messages") (JList []))) eqn:Ht;
    [|discriminate H].
  pose proof (get_truthy bindings (u "messages") (JList []) eq_refl Ht) as Hg.
  cbn [negb] in H.
  destruct (messages_to_prompt format_value (get bindings (u "messages") (JList [])))
    as [p|msg] eqn:Hp; [|discriminate H].
  exists bindings, (get bindings (u "messages") (JList [])), p. auto.
Qed.

End HandlerFacts.

(** ** The interface contract *)

Section Contract.

Variable format_value : json -> pystr.
Variable slice_error : json -> pystr.

Local Abbreviation completions := (handle_completions format_value slice_error).
Local Abbreviation chat_completions :=
  (handle_chat_completions format_value slice_error).

(** C1. In every payload that [POST /v1/completions] or
    [POST /v1/chat/completions] sends, [usage.prompt_tokens] is the number
    of whitespace-separated words of the prompt (for chat: of the
    flattened prompt), [usage.completion_tokens] that of the completion
    text, and [usage.total_tokens] is their sum. The words are counted
    by [number_of_words], which does not go through [split]. *)
Theorem usage_counts_words (cls : handler_class) (clk : clock)
    (payload : result json) (data : json) :
  (completions cls clk payload = SendJson 200 data ->
   exists d prompt text,
     payload = Ok (JDict d) /\
     dict_get d (u "prompt") = Some (JStr prompt) /\
     completion_text_of data = Some (JStr text) /\
     usage data (u "prompt_tokens") =
       Some (JInt (Z.of_nat (number_of_words prompt))) /\
     usage data (u "completion_tokens") =
       Some (JInt (Z.of_nat (number_of_words text))) /\
     usage data (u "total_tokens") =
       Some (JInt (Z.of_nat (number_of_words prompt) +
                   Z.of_nat (number_of_words text))))
  /\
  (chat_completions cls clk payload = SendJson 200 data ->
   exists d messages prompt text,
     payload = Ok (JDict d) /\
     dict_get d (u "messages") = Some messages /\
     messages_to_prompt format_value messages = Ok prompt /\
     chat_content_of data = Some (JStr text) /\
     usage data (u "prompt_tokens") =
       Some (JInt (Z.of_nat (number_of_words prompt))) /\
     usage data (u "completion_tokens") =
       Some (JInt (Z.of_nat (number_of_words text))) /\
     usage data (u "total_tokens") =
       Some (JInt (Z.of_nat (number_of_words prompt) +
                   Z.of_nat (number_of_words text)))).
Proof.
  split; intros H.
  - destruct (handle_completions_inv _ _ _ _ _ H) as (d & p & -> & Hp & Hne).
    rewrite (@handle_completions_str format_value slice_error cls clk _ _ Hp Hne) in H.
    injection H as <-.
    exists d, p, (reply_text cls p). rewrite <- !word_count_spec.
    repeat split; solve [assumption | reflexivity].
  - destruct (handle_chat_completions_inv _ _ _ _ _ H)
      as (d & messages & p & -> & Hm & Ht & Hp).
    rewrite (@handle_chat_completions_prompt _ slice_error cls clk _ _ _ Hm Ht Hp) in H.
    injection H as <-.
    exists d, messages, p, (reply_text cls p). rewrite <- !word_count_spec.
    repeat split; solve [assumption | reflexivity].
Qed.

(** C2. A [POST /v1/completions] whose JSON object has no [prompt] key is
    answered with 400, and so is a [POST /v1/chat/completions] whose
    [messages] is absent or the empty list: the answer is the error, not a
    completion payload. *)
Theorem missing_field_is_400 (cls : handler_class) (clk : clock) (d : dict) :
  (dict_get d (u "prompt") = None ->
   completions cls clk (Ok (JDict d)) =
   SendError 400 (u "Missing 'prompt' field"))
  /\
  (dict_get d (u "messages") = None \/
   dict_get d (u "messages") = Some (JList []) ->
   chat_completions cls clk (Ok (JDict d)) =
   SendError 400 (u "Missing 'messages' field")).
Proof.
  split.
  - intros H. unfold handle_completions. cbn [bind as_dict catch_500].
    rewrite (get_absent _ _ _ H). reflexivity.
  - intros H. unfold handle_chat_completions. cbn [bind as_dict catch_500].
    destruct H as [H|H].
    + rewrite (get_absent _ _ _ H). reflexivity.
    + rewrite (get_present _ _ _ H). reflexivity.
Qed.

(** C5. Every payload of [POST /v1/completions] has exactly one choice,
    with index 0, [logprobs] null and [finish_reason] "length", whatever
    the request says (its [n] included); every payload of
    [POST /v1/chat/completions] has exactly one choice, with index 0, a
    message of role "assistant" and [finish_reason] "length". *)
Theorem exactly_one_choice (cls : handler_class) (clk : clock)
    (payload : result json) (data : json) :
  (completions cls clk payload = SendJson 200 data ->
   exists text,
     field data (u "choices") =
     Some (JList [JDict [(u "text", JStr text);
                         (u "index", JInt 0);
                         (u "logprobs", JNull);
                         (u "finish_reason", JStr (u "length"))]]))
  /\
  (chat_completions cls clk payload = SendJson 200 data ->
   exists text,
     field data (u "choices") =
     Some (JList [JDict [(u "index", JInt 0);
                         (u "message", JDict [(u "role", JStr (u "assistant"));
                                              (u "content", JStr text)]);
                         (u "finish_reason", JStr (u "length"))]])).
Proof.
  split; intros H.
  - destruct (handle_completions_inv _ _ _ _ _ H) as (d & p & -> & Hp & Hne).
    rewrite (@handle_completions_str format_value slice_error cls clk _ _ Hp Hne) in H.
    injection H as <-. exists (reply_text cls p). reflexivity.
  - destruct (handle_chat_completions_inv _ _ _ _ _ H)
      as (d & messages & p & -> & Hm & Ht & Hp).
    rewrite (@handle_chat_completions_prompt _ slice_error cls clk _ _ _ Hm Ht Hp) in H.
    injection H as <-. exists (reply_text cls p). reflexivity.
Qed.

(** C6. Generation is a stub. Without a model runner the text of a
    payload is the fixed placeholder; with one it is the fixed template
    around the first 50 characters of the prompt (for chat: of the
    flattened prompt). [max_tokens], [temperature] and [top_p] have no
    part in it. *)
Theorem generation_is_stub (cls : handler_class) (clk : clock)
    (payload : result json) (data : json) :
  (completions cls clk payload = SendJson 200 data ->
   exists d prompt,
     payload = Ok (JDict d) /\
     dict_get d (u "prompt") = Some (JStr prompt) /\
     completion_text_of data = Some (JStr
       match model_runner cls with
       | None =>
           u "[Model not loaded] This is a placeholder response. Please load a model to get actual completions."
       | Some _ => u "[Generated response for: " ++ firstn 50 prompt ++ u "...]"
       end))
  /\
  (chat_completions cls clk payload = SendJson 200 data ->
   exists d messages prompt,
     payload = Ok (JDict d) /\
     dict_get d (u "messages") = Some messages /\
     messages_to_prompt format_value messages = Ok prompt /\
     chat_content_of data = Some (JStr
       match model_runner cls with
       | None =>
           u "[Model not loaded] This is a placeholder response. Please load a model to get actual completions."
       | Some _ => u "[Generated response for: " ++ firstn 50 prompt ++ u "...]"
       end))
  /\
  (forall (prompt : pystr) (max_tokens temperature top_p : json)
          (max_tokens' temperature' top_p' : json),
     generate_text format_value slice_error (JStr prompt) max_tokens temperature top_p =
     generate_text format_value slice_error (JStr prompt) max_tokens' temperature' top_p').
Proof.
  split; [|split]; try intros H.
  - destruct (handle_completions_inv _ _ _ _ _ H) as (d & p & -> & Hp & Hne).
    rewrite (@handle_completions_str format_value slice_error cls clk _ _ Hp Hne) in H.
    injection H as <-. exists d, p. repeat split; solve [assumption | reflexivity].
  - destruct (handle_chat_completions_inv _ _ _ _ _ H)
      as (d & messages & p & -> & Hm & Ht & Hp).
    rewrite (@handle_chat_completions_prompt _ slice_error cls clk _ _ _ Hm Ht Hp) in H.
    injection H as <-. exists d, messages, p.
    repeat split; solve [assumption | reflexivity].
  - reflexivity.
Qed.

(** C9, as the code has it. On a JSON object, [POST /v1/completions]
    answers 400 exactly when the prompt (the empty string when the key is
    absent) is falsy. A truthy prompt that is a string gets a completion
    payload; a truthy prompt of another type gets 500, raised by
    [prompt.split()]. *)
Theorem prompt_400_iff_falsy (cls : handler_class) (clk : clock) (d : dict) :
  let prompt := get d (u "prompt") (JStr []) in
  (status_of (completions cls clk (Ok (JDict d))) = 400 <-> truthy prompt = false)
  /\
  (truthy prompt = true -> (exists p, prompt = JStr p) ->
   exists data, completions cls clk (Ok (JDict d)) = SendJson 200 data)
  /\
  (truthy prompt = true -> (forall p, prompt <> JStr p) ->
   completions cls clk (Ok (JDict d)) =
   SendError 500 (u "Internal server error: '" ++ type_name prompt ++
                  u "' object has no attribute 'split'")).
Proof.
  intros prompt.
  assert (Hstr : forall p, prompt = JStr p -> truthy prompt = true ->
    exists data, completions cls clk (Ok (JDict d)) = SendJson 200 data).
  { intros p Hp Ht. eexists. apply handle_completions_str with (p := p).
    - rewrite <- Hp. apply get_truthy; [reflexivity | exact Ht].
    - intros ->. rewrite Hp in Ht. discriminate Ht. }
  assert (Hother : truthy prompt = true -> (forall p, prompt <> JStr p) ->
    completions cls clk (Ok (JDict d)) =
    SendError 500 (u "Internal server error: '" ++ type_name prompt ++
                   u "' object has no attribute 'split'")).
  { intros Ht Hns. unfold handle_completions. cbn [bind as_dict catch_500].
    fold prompt. rewrite Ht. cbn [negb].
    destruct prompt; solve [reflexivity | exfalso; eapply Hns; reflexivity]. }
  split; [|split].
  - split.
    + intros H. destruct (truthy prompt) eqn:Ht; [|reflexivity]. exfalso.
      destruct (str_or_not prompt) as [[p Hp]|Hns].
      * destruct (Hstr p Hp eq_refl) as [data Hd]. rewrite Hd in H. discriminate H.
      * rewrite (Hother eq_refl Hns) in H. discriminate H.
    + intros Hf. unfold handle_completions. cbn [bind as_dict catch_500].
      fold prompt. rewrite Hf. reflexivity.
  - intros Ht [p Hp]. exact (Hstr p Hp Ht).
  - exact Hother.
Qed.

(** C3. For a list of messages with roles among system, user and
    assistant, the flattened prompt is one line per message, in order,
    made of the capitalised role label and the content, then a last line
    [Assistant:], joined by newlines. *)
Theorem flattened_prompt (msgs : list json) (entries : list (role * pystr)) :
  msgs <> [] ->
  Forall2 (fun msg e => is_message msg (fst e) (snd e)) msgs entries ->
  messages_to_prompt format_value (JList msgs) =
  Ok (join (u newline)
        (List.map (fun e => role_label (fst e) ++ snd e) entries ++ [u "Assistant:"])).
Proof.
  intros _ H. unfold messages_to_prompt. cbn [iterate bind].
  rewrite (for_each_message_messages format_value H). reflexivity.
Qed.

(** C10. In the flattening, a message without a [role] key gets the
    prefix [User: ]; a message whose role is present and none of system,
    user, assistant adds nothing, so the prompt is the one of the list
    without it; and a list of such messages only is still not empty for
    the check before it: the request is answered with a payload, whose
    prompt is the single line [Assistant:]. *)
Theorem roles_absent_or_unknown (cls : handler_class) (clk : clock) :
  (forall d parts,
     dict_get d (u "role") = None ->
     append_part format_value parts (JDict d) =
     Ok (parts ++ [u "User: " ++ interpolate format_value (get d (u "content") (JStr []))]))
  /\
  (forall msg pre post,
     dropped msg ->
     (forall parts, append_part format_value parts msg = Ok parts) /\
     messages_to_prompt format_value (JList (pre ++ msg :: post)) =
     messages_to_prompt format_value (JList (pre ++ post)))
  /\
  (forall msgs request,
     msgs <> [] -> Forall dropped msgs ->
     dict_get request (u "messages") = Some (JList msgs) ->
     messages_to_prompt format_value (JList msgs) = Ok (u "Assistant:") /\
     exists data,
       chat_completions cls clk (Ok (JDict request)) = SendJson 200 data /\
       usage data (u "prompt_tokens") = Some (JInt 1)).
Proof.
  split; [|split].
  - intros d parts Hr. unfold append_part. cbn [bind as_dict].
    rewrite (get_absent _ _ _ Hr). reflexivity.
  - intros msg pre post Hd. split.
    + intros parts. apply append_part_dropped, Hd.
    + unfold messages_to_prompt. cbn [iterate bind].
      rewrite !for_each_message_app.
      destruct (for_each_message format_value pre []) as [parts|e]; cbn [bind];
        [|reflexivity].
      cbn [for_each_message]. now rewrite (append_part_dropped format_value parts Hd).
  - intros msgs request Hne Hd Hm.
    assert (Hp : messages_to_prompt format_value (JList msgs) = Ok (u "Assistant:")).
    { unfold messages_to_prompt. cbn [iterate bind].
      rewrite (for_each_message_dropped format_value [] Hd). reflexivity. }
    split; [exact Hp|].
    assert (Ht : truthy (JList msgs) = true) by (destruct msgs; [contradiction|reflexivity]).
    eexists. split.
    + apply (@handle_chat_completions_prompt _ slice_error cls clk _ _ _ Hm Ht Hp).
    + reflexivity.
Qed.

End Contract.

(** ** The running server *)

Section Server.

Variable format_value : json -> pystr.
Variable slice_error : json -> pystr.
Variable path_exists : pystr -> bool.

Lemma run_server_keeps (cls : handler_class) (host : pystr) (port : Z)
    (engine_dir model_dir : option pystr) :
  run_server path_exists cls host port engine_dir model_dir = cls.
Proof.
  unfold run_server. destruct engine_dir as [dir|]; [|reflexivity].
  destruct (_ && _); reflexivity.
Qed.

Lemma main_class (cl : command_line) :
  main path_exists cl =
  {| model_runner := None;
     model_name := or_default (opt_model_name cl) (u "gpt-oss-20b") |}.
Proof. unfold main. now rewrite run_server_keeps. Qed.

Lemma serve_forever_trace (cls : handler_class) (reqs : list (clock * request)) :
  serve_forever format_value slice_error cls reqs =
  (cls, List.map (fun cr => snd (handle_one_request format_value slice_error
                                   cls (fst cr) (snd cr))) reqs).
Proof.
  induction reqs as [|[clk req] rest IH]; [reflexivity|].
  cbn [serve_forever List.map fst snd].
  unfold handle_one_request. destruct (req_command req); rewrite IH; reflexivity.
Qed.

Lemma Forall2_map_r {A B : Type} (P : A -> B -> Prop) (f : A -> B) (l : list A) :
  (forall a, P a (f a)) -> Forall2 P l (List.map f l).
Proof. intros H. induction l; constructor; auto. Qed.

(** C4. [model_runner] is [None] in the class, after start-up whatever
    the command line and the file system, and after any sequence of
    requests. So every [GET /health] reports [model_loaded: false], and
    the text of every completion payload is the fixed placeholder. *)
Theorem model_never_loaded (cl : command_line) (reqs : list (clock * request)) :
  model_runner OpenAIHandler = None /\
  model_runner (main path_exists cl) = None /\
  model_runner (fst (run format_value slice_error path_exists cl reqs)) = None /\
  Forall2 (fun cr resp => answered_without_model (snd cr) resp)
    reqs (snd (run format_value slice_error path_exists cl reqs)).
Proof.
  unfold run. rewrite serve_forever_trace, main_class. cbn [fst snd].
  repeat split.
  apply Forall2_map_r. intros [clk req]. cbn [fst snd].
  unfold answered_without_model, handle_one_request.
  split; [|split]; intros Hc Hp; rewrite Hc, Hp; cbn [snd].
  - reflexivity.
  - intros data H. change (do_POST _ _ _ _ _ _) with
      (handle_completions format_value slice_error
         {| model_runner := None;
            model_name := or_default (opt_model_name cl) (u "gpt-oss-20b") |}
         clk (req_payload req)) in H.
    destruct (handle_completions_inv _ _ _ _ _ H) as (d & p & E & Hd & Hne).
    rewrite E in H.
    rewrite (@handle_completions_str format_value slice_error _ clk _ _ Hd Hne) in H.
    injection H as <-. reflexivity.
  - intros data H. change (do_POST _ _ _ _ _ _) with
      (handle_chat_completions format_value slice_error
         {| model_runner := None;
            model_name := or_default (opt_model_name cl) (u "gpt-oss-20b") |}
         clk (req_payload req)) in H.
    destruct (handle_chat_completions_inv _ _ _ _ _ H)
      as (d & messages & p & E & Hm & Ht & Hq).
    rewrite E in H.
    rewrite (@handle_chat_completions_prompt _ slice_error _ clk _ _ _ Hm Ht Hq) in H.
    injection H as <-. reflexivity.
Qed.

(** C7. Whatever the command line and the requests before, the reply to
    [GET /v1/models] is the object ["list"] with exactly one entry: [id]
    and [root] are the model name given at start-up ("gpt-oss-20b" when
    none is given), [object] is "model", [owned_by] "tensorrt-llm",
    [permission] the empty list and [parent] null. *)
Theorem models_lists_configured_name (cl : command_line)
    (reqs : list (clock * request)) :
  Forall2 (fun cr resp =>
      req_command (snd cr) = GET -> req_path (snd cr) = u "/v1/models" ->
      resp = SendJson 200 (JDict [
        (u "object", JStr (u "list"));
        (u "data", JList [
          JDict [
            (u "id", JStr (or_default (opt_model_name cl) (u "gpt-oss-20b")));
            (u "object", JStr (u "model"));
            (u "created", JInt (time_now (fst cr)));
            (u "owned_by", JStr (u "tensorrt-llm"));
            (u "permission", JList []);
            (u "root", JStr (or_default (opt_model_name cl) (u "gpt-oss-20b")));
            (u "parent", JNull)]])]))
    reqs (snd (run format_value slice_error path_exists cl reqs)).
Proof.
  unfold run. rewrite serve_forever_trace, main_class. cbn [snd].
  apply Forall2_map_r. intros [clk req]. cbn [fst snd].
  unfold handle_one_request. intros -> Hp. cbn [snd]. rewrite Hp. reflexivity.
Qed.

End Server.

(** ** The contract on the sample inputs *)

Lemma usage_counts_words_witness :
  let completions := handle_completions sample_format sample_slice_error in
  let chat := handle_chat_completions sample_format sample_slice_error in
  let data := payload_of (completions OpenAIHandler sample_clock
                            (Ok (JDict sample_completion_request))) in
  let chat_data := payload_of (chat OpenAIHandler sample_clock
                                 (Ok (JDict sample_chat_request))) in
  (completions OpenAIHandler sample_clock (Ok (JDict sample_completion_request)) =
     SendJson 200 data /\
   usage data (u "total_tokens") = Some (JInt (2 + 16))) /\
  (chat OpenAIHandler sample_clock (Ok (JDict sample_chat_request)) =
     SendJson 200 chat_data /\
   usage chat_data (u "total_tokens") = Some (JInt (6 + 16))).
Proof.
  intros completions chat data chat_data.
  assert (H : completions OpenAIHandler sample_clock
                (Ok (JDict sample_completion_request)) = SendJson 200 data)
    by reflexivity.
  assert (Hc : chat OpenAIHandler sample_clock (Ok (JDict sample_chat_request)) =
               SendJson 200 chat_data) by reflexivity.
  split; split; try assumption.
  - destruct (proj1 (usage_counts_words sample_format sample_slice_error
                       OpenAIHandler sample_clock _ data) H)
      as (d & prompt & text & E & Hp & Ht & _ & _ & Htotal).
    injection E as <-.
    vm_compute in Hp. injection Hp as <-.
    vm_compute in Ht. injection Ht as <-.
    exact Htotal.
  - destruct (proj2 (usage_counts_words sample_format sample_slice_error
                       OpenAIHandler sample_clock _ chat_data) Hc)
      as (d & messages & prompt & text & E & Hm & Hp & Ht & _ & _ & Htotal).
    injection E as <-.
    vm_compute in Hm. injection Hm as <-.
    vm_compute in Hp. injection Hp as <-.
    vm_compute in Ht. injection Ht as <-.
    exact Htotal.
Defined.

Lemma missing_field_is_400_witness :
  handle_completions sample_format sample_slice_error OpenAIHandler sample_clock
    (Ok (JDict [])) = SendError 400 (u "Missing 'prompt' field") /\
  handle_chat_completions sample_format sample_slice_error OpenAIHandler sample_clock
    (Ok (JDict [(u "messages", JList [])])) =
  SendError 400 (u "Missing 'messages' field").
Proof.
  split.
  - apply (proj1 (missing_field_is_400 sample_format sample_slice_error
                    OpenAIHandler sample_clock [])).
    reflexivity.
  - apply (proj2 (missing_field_is_400 sample_format sample_slice_error
                    OpenAIHandler sample_clock [(u "messages", JList [])])).
    right. reflexivity.
Defined.

Lemma exactly_one_choice_witness :
  let data := payload_of (handle_completions sample_format sample_slice_error
                OpenAIHandler sample_clock
                (Ok (JDict ((u "n", JInt 3) :: sample_completion_request)))) in
  let chat_data := payload_of (handle_chat_completions sample_format
                sample_slice_error OpenAIHandler sample_clock
                (Ok (JDict sample_chat_request))) in
  (exists text,
     field data (u "choices") =
     Some (JList [JDict [(u "text", JStr text);
                         (u "index", JInt 0);
                         (u "logprobs", JNull);
                         (u "finish_reason", JStr (u "length"))]])) /\
  (exists text,
     field chat_data (u "choices") =
     Some (JList [JDict [(u "index", JInt 0);
                         (u "message", JDict [(u "role", JStr (u "assistant"));
                                              (u "content", JStr text)]);
                         (u "finish_reason", JStr (u "length"))]])).
Proof.
  intros data chat_data. split.
  - apply (proj1 (exactly_one_choice sample_format sample_slice_error
                    OpenAIHandler sample_clock
                    (Ok (JDict ((u "n", JInt 3) :: sample_completion_request)))
                    data)).
    reflexivity.
  - apply (proj2 (exactly_one_choice sample_format sample_slice_error
                    OpenAIHandler sample_clock (Ok (JDict sample_chat_request))
                    chat_data)).
    reflexivity.
Defined.

Lemma generation_is_stub_witness :
  let data := payload_of (handle_completions sample_format sample_slice_error
                sample_loaded_class sample_clock
                (Ok (JDict sample_completion_request))) in
  let chat_data := payload_of (handle_chat_completions sample_format
                sample_slice_error OpenAIHandler sample_clock
                (Ok (JDict sample_chat_request))) in
  completion_text_of data =
    Some (JStr (u "[Generated response for: Hello world...]")) /\
  chat_content_of chat_data = Some (JStr placeholder_text).
Proof.
  intros data chat_data. split.
  - destruct (proj1 (generation_is_stub sample_format sample_slice_error
                       sample_loaded_class sample_clock
                       (Ok (JDict sample_completion_request)) data) eq_refl)
      as (d & prompt & E & Hp & Ht).
    injection E as <-. vm_compute in Hp. injection Hp as <-. exact Ht.
  - destruct (proj1 (proj2 (generation_is_stub sample_format sample_slice_error
                       OpenAIHandler sample_clock
                       (Ok (JDict sample_chat_request)) chat_data)) eq_refl)
      as (d & messages & prompt & _ & _ & _ & Ht).
    exact Ht.
Defined.

(** C9, counterexample: the prompt [5] is truthy and gets no payload. *)
Lemma truthy_prompt_without_payload :
  truthy (JInt 5) = true /\
  handle_completions sample_format sample_slice_error OpenAIHandler sample_clock
    (Ok (JDict [(u "prompt", JInt 5)])) =
  SendError 500 (u "Internal server error: 'int' object has no attribute 'split'").
Proof. split; reflexivity. Qed.

Lemma prompt_400_iff_falsy_witness :
  status_of (handle_completions sample_format sample_slice_error OpenAIHandler
               sample_clock (Ok (JDict [(u "prompt", JInt 0)]))) = 400 /\
  (exists data,
     handle_completions sample_format sample_slice_error OpenAIHandler
       sample_clock (Ok (JDict sample_completion_request)) = SendJson 200 data) /\
  handle_completions sample_format sample_slice_error OpenAIHandler sample_clock
    (Ok (JDict [(u "prompt", JList [JNull])])) =
  SendError 500 (u "Internal server error: 'list' object has no attribute 'split'").
Proof.
  split; [|split].
  - apply (proj1 (prompt_400_iff_falsy sample_format sample_slice_error
                    OpenAIHandler sample_clock [(u "prompt", JInt 0)])).
    reflexivity.
  - apply (proj1 (proj2 (prompt_400_iff_falsy sample_format sample_slice_error
                    OpenAIHandler sample_clock sample_completion_request))).
    + reflexivity.
    + exists (u "Hello world"). reflexivity.
  - apply (proj2 (proj2 (prompt_400_iff_falsy sample_format sample_slice_error
                    OpenAIHandler sample_clock [(u "prompt", JList [JNull])]))).
    + reflexivity.
    + intros p. discriminate.
Defined.

Lemma flattened_prompt_witness :
  messages_to_prompt sample_format (JList sample_messages) =
  Ok (u "System: Be terse." ++ u newline ++ u "User: Hi" ++ u newline ++ u "Assistant:").
Proof.
  apply (@flattened_prompt sample_format sample_messages
           [(System, u "Be terse."); (User, u "Hi")]).
  - discriminate.
  - repeat constructor; eexists; repeat split; reflexivity.
Defined.

Lemma sample_tool_message_dropped : dropped sample_tool_message.
Proof.
  exists [(u "role", JStr (u "tool")); (u "content", JStr (u "42"))], (JStr (u "tool")).
  repeat split; intros H; discriminate H.
Defined.

Lemma roles_absent_or_unknown_witness :
  append_part sample_format [] (JDict [(u "content", JStr (u "Hi"))]) =
    Ok [u "User: Hi"] /\
  messages_to_prompt sample_format (JList (sample_tool_message :: sample_messages)) =
    messages_to_prompt sample_format (JList sample_messages) /\
  exists data,
    handle_chat_completions sample_format sample_slice_error OpenAIHandler
      sample_clock (Ok (JDict [(u "messages", JList [sample_tool_message])])) =
    SendJson 200 data /\
    usage data (u "prompt_tokens") = Some (JInt 1).
Proof.
  pose proof (roles_absent_or_unknown sample_format sample_slice_error
                OpenAIHandler sample_clock) as (Habsent & Hunknown & Hgate).
  split; [|split].
  - apply (Habsent [(u "content", JStr (u "Hi"))] []). reflexivity.
  - apply (Hunknown sample_tool_message [] sample_messages
             sample_tool_message_dropped).
  - apply (Hgate [sample_tool_message]
             [(u "messages", JList [sample_tool_message])]).
    + discriminate.
    + constructor; [exact sample_tool_message_dropped | constructor].
    + reflexivity.
Defined.

Lemma model_never_loaded_witness :
  let resps := snd (run sample_format sample_slice_error (fun _ => true)
                      sample_command_line sample_requests) in
  model_runner (fst (run sample_format sample_slice_error (fun _ => true)
                       sample_command_line sample_requests)) = None /\
  hd (SendError 0 []) resps =
  SendJson 200 (JDict [(u "status", JStr (u "healthy"));
                       (u "model_loaded", JBool false)]).
Proof.
  intros resps.
  destruct (model_never_loaded sample_format sample_slice_error (fun _ => true)
              sample_command_line sample_requests) as (_ & _ & Hcls & Hall).
  split; [exact Hcls|].
  fold resps in Hall.
  assert (E : resps = hd (SendError 0 []) resps :: tl resps) by reflexivity.
  rewrite E in Hall. unfold sample_requests in Hall.
  apply Forall2_cons_iff in Hall. destruct Hall as [(Hhealth & _) _].
  apply Hhealth; reflexivity.
Defined.

Lemma models_lists_configured_name_witness :
  let resps := snd (run sample_format sample_slice_error (fun _ => false)
                      sample_command_line sample_requests) in
  nth 1 resps (SendError 0 []) =
  SendJson 200 (JDict [
    (u "object", JStr (u "list"));
    (u "data", JList [
      JDict [
        (u "id", JStr (u "gpt-oss-20b"));
        (u "object", JStr (u "model"));
        (u "created", JInt 1700000000);
        (u "owned_by", JStr (u "tensorrt-llm"));
        (u "permission", JList []);
        (u "root", JStr (u "gpt-oss-20b"));
        (u "parent", JNull)]])]).
Proof.
  intros resps.
  pose proof (models_lists_configured_name sample_format sample_slice_error
                (fun _ => false) sample_command_line sample_requests) as Hall.
  fold resps in Hall.
  assert (E : resps = hd (SendError 0 []) resps ::
                      nth 1 resps (SendError 0 []) :: tl (tl resps))
    by reflexivity.
  rewrite E in Hall. unfold sample_requests in Hall.
  apply Forall2_cons_iff in Hall. destruct Hall as [_ Hall].
  apply Forall2_cons_iff in Hall. destruct Hall as [Hmodels _].
  rewrite E. cbn [nth]. apply Hmodels; reflexivity.
Defined.

(** * Further properties of the handlers *)

Unset Implicit Arguments.

(** ** What a completion handler can answer *)

Section Answers.

Variable format_value : json -> pystr.
Variable slice_error : json -> pystr.

Lemma handle_completions_cases (cls : handler_class) (clk : clock)
    (payload : result json) :
  (exists data,
     handle_completions format_value slice_error cls clk payload = SendJson 200 data) \/
  handle_completions format_value slice_error cls clk payload =
    SendError 400 (u "Missing 'prompt' field") \/
  (exists msg,
     handle_completions format_value slice_error cls clk payload =
     SendError 500 (u "Internal server error: " ++ msg)).
Proof.
  unfold handle_completions.
  destruct payload as [request_data|msg]; cbn [bind catch_500]; [|eauto].
  destruct request_data; cbn [as_dict no_attribute bind catch_500]; eauto.
  destruct (truthy (get bindings (u "prompt") (JStr []))); cbn [negb]; [|auto].
  destruct (count_words (get bindings (u "prompt") (JStr []))) as [n|msg];
    cbn [count_words bind catch_500 send_json_response]; eauto.
Qed.

Lemma handle_chat_completions_cases (cls : handler_class) (clk : clock)
    (payload : result json) :
  (exists data,
     handle_chat_completions format_value slice_error cls clk payload =
     SendJson 200 data) \/
  handle_chat_completions format_value slice_error cls clk payload =
    SendError 400 (u "Missing 'messages' field") \/
  (exists msg,
     handle_chat_completions format_value slice_error cls clk payload =
     SendError 500 (u "Internal server error: " ++ msg)).
Proof.
  unfold handle_chat_completions.
  destruct payload as [request_data|msg]; cbn [bind catch_500]; [|eauto].
  destruct request_data; cbn [as_dict no_attribute bind catch_500]; eauto.
  destruct (truthy (get bindings (u "messages") (JList []))); cbn [negb]; [|auto].
  destruct (messages_to_prompt format_value (get bindings (u "messages") (JList [])))
    as [p|msg]; cbn [count_words bind catch_500 send_json_response]; eauto.
Qed.

Lemma do_POST_cases (cls : handler_class) (clk : clock) (path : pystr)
    (payload : result json) :
  In path post_routes ->
  (exists data,
     do_POST format_value slice_error cls clk path payload = SendJson 200 data) \/
  (exists msg,
     do_POST format_value slice_error cls clk path payload = SendError 400 msg) \/
  (exists msg,
     do_POST format_value slice_error cls clk path payload = SendError 500 msg).
Proof.
  unfold post_routes. cbn [In]. intros [<-|[<-|[]]].
  - change (do_POST _ _ cls clk _ payload)
      with (handle_completions format_value slice_error cls clk payload).
    destruct (handle_completions_cases cls clk payload) as [[data H]|[H|[msg H]]];
      rewrite H; eauto.
  - change (do_POST _ _ cls clk _ payload)
      with (handle_chat_completions format_value slice_error cls clk payload).
    destruct (handle_chat_completions_cases cls clk payload)
      as [[data H]|[H|[msg H]]]; rewrite H; eauto.
Qed.

Lemma do_POST_unrouted (cls : handler_class) (clk : clock) (path : pystr)
    (payload : result json) :
  ~ In path post_routes ->
  do_POST format_value slice_error cls clk path payload = SendError 404 (u "Not Found").
Proof.
  unfold post_routes. cbn [In]. intros H. unfold do_POST.
  rewrite !str_eqb_neq; [reflexivity| |]; intros ->; tauto.
Qed.

Lemma do_GET_routed (cls : handler_class) (clk : clock) (path : pystr) :
  In path get_routes -> exists data, do_GET cls clk path = SendJson 200 data.
Proof.
  unfold get_routes. cbn [In]. intros [<-|[<-|[<-|[]]]]; eexists; reflexivity.
Qed.

Lemma do_GET_unrouted (cls : handler_class) (clk : clock) (path : pystr) :
  ~ In path get_routes -> do_GET cls clk path = SendError 404 (u "Not Found").
Proof.
  unfold get_routes. cbn [In]. intros H. unfold do_GET.
  rewrite !str_eqb_neq; [reflexivity| | |]; intros ->; tauto.
Qed.

Lemma in_routes_dec (path : pystr) (routes : list pystr) :
  In path routes \/ ~ In path routes.
Proof.
  induction routes as [|r routes IH]; [right; intros []|].
  destruct (str_eqb r path) eqn:E.
  - left. left. now apply str_eqb_eq.
  - destruct IH as [IH|IH]; [left; now right|].
    right. intros [H|H]; [|contradiction].
    subst. rewrite str_eqb_refl in E. discriminate E.
Qed.

(** X1. A path gets 404 "Not Found" exactly when the method has no
    route for it. The two methods share no route: a path that GET serves
    is unknown to POST, and conversely. *)
Theorem not_found_iff_unrouted (cls : handler_class) (clk : clock) (path : pystr)
    (payload : result json) :
  (do_GET cls clk path = SendError 404 (u "Not Found") <->
   ~ In path [u "/v1/models"; u "/health"; u "/"]) /\
  (do_POST format_value slice_error cls clk path payload =
     SendError 404 (u "Not Found") <->
   ~ In path [u "/v1/completions"; u "/v1/chat/completions"]) /\
  (In path [u "/v1/models"; u "/health"; u "/"] ->
   do_POST format_value slice_error cls clk path payload =
     SendError 404 (u "Not Found")) /\
  (In path [u "/v1/completions"; u "/v1/chat/completions"] ->
   do_GET cls clk path = SendError 404 (u "Not Found")).
Proof.
  fold get_routes post_routes. repeat split.
  - intros H Hin. destruct (do_GET_routed cls clk path Hin) as [data Hd].
    rewrite Hd in H. discriminate H.
  - apply do_GET_unrouted.
  - intros H Hin.
    destruct (do_POST_cases cls clk path payload Hin)
      as [[data Hd]|[[msg Hd]|[msg Hd]]]; rewrite Hd in H; discriminate H.
  - apply do_POST_unrouted.
  - intros Hin. apply do_POST_unrouted.
    unfold get_routes, post_routes in *. cbn [In] in *.
    intros [<-|[<-|[]]]; destruct Hin as [H|[H|[H|[]]]]; discriminate H.
  - intros Hin. apply do_GET_unrouted.
    unfold get_routes, post_routes in *. cbn [In] in *.
    intros [<-|[<-|[<-|[]]]]; destruct Hin as [H|[H|[]]]; discriminate H.
Qed.

(** X2. Whatever the GET or POST request, the answer of [do_GET] or
    [do_POST] has status 200, 400, 404 or 500; a GET is never answered
    with 400 or 500; and the status is 200 exactly when the answer is a
    JSON payload. *)
Theorem answer_statuses (cls : handler_class) (clk : clock) (req : request) :
  let resp := snd (handle_one_request format_value slice_error cls clk req) in
  In (status_of resp) [200; 400; 404; 500] /\
  (req_command req = GET -> In (status_of resp) [200; 404]) /\
  (status_of resp = 200 <-> exists data, resp = SendJson 200 data).
Proof.
  intros resp. subst resp. unfold handle_one_request.
  destruct (req_command req); cbn [snd].
  - destruct (in_routes_dec (req_path req) get_routes) as [Hin|Hout].
    + destruct (do_GET_routed cls clk _ Hin) as [data ->]. cbn [status_of In].
      split; [tauto|]. split; [tauto|]. split; eauto.
    + rewrite (do_GET_unrouted cls clk _ Hout). cbn [status_of In].
      split; [tauto|]. split; [tauto|].
      split; [discriminate | intros [data H]; discriminate H].
  - destruct (in_routes_dec (req_path req) post_routes) as [Hin|Hout].
    + destruct (do_POST_cases cls clk _ (req_payload req) Hin)
        as [[data ->]|[[msg ->]|[msg ->]]]; cbn [status_of In];
        (split; [tauto|]); (split; [discriminate|]);
        split; eauto; try discriminate; intros [data' H]; discriminate H.
    + rewrite (do_POST_unrouted cls clk _ (req_payload req) Hout).
      cbn [status_of In].
      split; [tauto|]. split; [discriminate|].
      split; [discriminate | intros [data H]; discriminate H].
Qed.

(** X3. A body that cannot be read or parsed is answered with 500 and
    the message of the exception; so is a body that parses to anything
    but an object, whose [get] is missing. Both come before any check of
    the fields. *)
Theorem unusable_body_is_500 (cls : handler_class) (clk : clock) :
  (forall msg,
     handle_completions format_value slice_error cls clk (Raise msg) =
       SendError 500 (u "Internal server error: " ++ msg) /\
     handle_chat_completions format_value slice_error cls clk (Raise msg) =
       SendError 500 (u "Internal server error: " ++ msg)) /\
  (forall v,
     is_object v = false ->
     handle_completions format_value slice_error cls clk (Ok v) =
       SendError 500 (u "Internal server error: '" ++ type_name v ++
                      u "' object has no attribute 'get'") /\
     handle_chat_completions format_value slice_error cls clk (Ok v) =
       SendError 500 (u "Internal server error: '" ++ type_name v ++
                      u "' object has no attribute 'get'")).
Proof.
  split.
  - intros msg. split; reflexivity.
  - intros v Hv. destruct v; try discriminate Hv; split; reflexivity.
Qed.

End Answers.

(** ** Which messages the chat handler accepts *)

Section ChatMessages.

Variable format_value : json -> pystr.
Variable slice_error : json -> pystr.

Lemma append_part_object (parts : list pystr) (d : dict) :
  append_part format_value parts (JDict d) =
  Ok (parts ++ lines_of format_value [d]).
Proof.
  unfold append_part, lines_of, speaker. cbn [bind as_dict flat_map].
  rewrite app_nil_r.
  destruct (dict_get d (u "role")) as [r|] eqn:Hr.
  - rewrite (get_present _ _ _ Hr).
    destruct r; try (cbn [eq_str]; now rewrite app_nil_r).
    cbn [eq_str].
    destruct (str_eqb s (u "system")); [reflexivity|].
    destruct (str_eqb s (u "user")); [reflexivity|].
    destruct (str_eqb s (u "assistant")); [reflexivity|].
    now rewrite app_nil_r.
  - rewrite (get_absent _ _ _ Hr). reflexivity.
Qed.

Lemma lines_of_cons (d : dict) (ds : list dict) :
  lines_of format_value (d :: ds) =
  lines_of format_value [d] ++ lines_of format_value ds.
Proof. unfold lines_of. cbn [flat_map]. now rewrite app_nil_r. Qed.

Lemma for_each_message_objects (ds : list dict) (parts : list pystr) :
  for_each_message format_value (List.map JDict ds) parts =
  Ok (parts ++ lines_of format_value ds).
Proof.
  revert parts. induction ds as [|d ds IH]; intros parts.
  - cbn. now rewrite app_nil_r.
  - cbn [List.map for_each_message]. rewrite append_part_object. cbn [bind].
    rewrite IH, (lines_of_cons d ds), app_assoc. reflexivity.
Qed.

Lemma objects_are_dicts (msgs : list json) :
  forallb is_object msgs = true -> exists ds, msgs = List.map JDict ds.
Proof.
  induction msgs as [|v msgs IH]; intros H.
  - exists []. reflexivity.
  - cbn [forallb] in H. apply andb_true_iff in H as [Hv Hm].
    destruct (IH Hm) as [ds ->]. destruct v; try discriminate Hv.
    exists (bindings :: ds). reflexivity.
Qed.

Lemma append_part_not_object (parts : list pystr) (v : json) :
  is_object v = false ->
  append_part format_value parts v =
  Raise (u "'" ++ type_name v ++ u "' object has no attribute 'get'").
Proof. destruct v; try discriminate; reflexivity. Qed.

Lemma for_each_message_ok (msgs : list json) (parts parts' : list pystr) :
  for_each_message format_value msgs parts = Ok parts' ->
  forallb is_object msgs = true.
Proof.
  revert parts. induction msgs as [|v msgs IH]; intros parts H; [reflexivity|].
  cbn [for_each_message] in H. cbn [forallb].
  destruct (is_object v) eqn:Hv.
  - destruct (append_part format_value parts v) as [q|e]; [|discriminate H].
    cbn [bind] in H. now rewrite (IH _ H).
  - rewrite (append_part_not_object parts v Hv) in H. discriminate H.
Qed.

Lemma messages_to_prompt_objects (ds : list dict) :
  messages_to_prompt format_value (JList (List.map JDict ds)) =
  Ok (join (u newline) (lines_of format_value ds ++ [u "Assistant:"])).
Proof.
  unfold messages_to_prompt. cbn [iterate bind].
  rewrite for_each_message_objects. reflexivity.
Qed.

(** Only a list of objects, or something empty, can be flattened. *)
Lemma messages_to_prompt_ok (messages : json) (prompt : pystr) :
  messages_to_prompt format_value messages = Ok prompt ->
  truthy messages = true ->
  exists msgs, messages = JList msgs /\ msgs <> [] /\
               forallb is_object msgs = true.
Proof.
  unfold messages_to_prompt. intros H Ht.
  destruct messages; try discriminate H.
  - destruct s as [|c s]; [discriminate Ht | discriminate H].
  - exists items. repeat split.
    + intros ->. discriminate Ht.
    + cbn [iterate bind] in H.
      destruct (for_each_message format_value items []) as [parts|e] eqn:E;
        [|discriminate H].
      apply (for_each_message_ok _ _ _ E).
  - destruct bindings as [|[k v] d]; [discriminate Ht | discriminate H].
Qed.

Lemma chat_raises (cls : handler_class) (clk : clock) (d : dict)
    (messages : json) (msg : pystr) :
  dict_get d (u "messages") = Some messages -> truthy messages = true ->
  messages_to_prompt format_value messages = Raise msg ->
  handle_chat_completions format_value slice_error cls clk (Ok (JDict d)) =
  SendError 500 (u "Internal server error: " ++ msg).
Proof.
  intros Hm Ht Hp. unfold handle_chat_completions.
  cbn [bind as_dict catch_500].
  rewrite (get_present _ _ _ Hm), Ht, Hp. reflexivity.
Qed.

(** X4. On a JSON object, the chat handler answers 400 exactly when
    [messages] (the empty list when the key is absent) is falsy, answers
    with a payload exactly when [messages] is a list, not empty, of
    objects only, and answers 500 "Internal server error: ..." exactly
    in the remaining case: a truthy [messages] that is not such a list. *)
Theorem chat_answer_by_messages (cls : handler_class) (clk : clock) (d : dict) :
  let messages := get d (u "messages") (JList []) in
  let answer :=
    handle_chat_completions format_value slice_error cls clk (Ok (JDict d)) in
  (status_of answer = 400 <-> truthy messages = false) /\
  ((exists data, answer = SendJson 200 data) <->
   (exists msgs, messages = JList msgs /\ msgs <> [] /\
                 forallb is_object msgs = true)) /\
  ((exists msg, answer = SendError 500 (u "Internal server error: " ++ msg)) <->
   truthy messages = true /\
   ~ (exists msgs, messages = JList msgs /\ msgs <> [] /\
                   forallb is_object msgs = true)).
Proof.
  intros messages answer.
  assert (Hpayload : (exists data, answer = SendJson 200 data) <->
    (exists msgs, messages = JList msgs /\ msgs <> [] /\
                  forallb is_object msgs = true)).
  { split.
    - intros [data H]. subst answer.
      destruct (handle_chat_completions_inv _ _ _ _ _ H)
        as (d' & m & p & E & Hm & Ht & Hp).
      injection E as <-. subst messages. rewrite (get_present _ _ _ Hm).
      apply (messages_to_prompt_ok _ _ Hp Ht).
    - intros (msgs & Hm & Hne & Hobj). subst answer.
      destruct (objects_are_dicts _ Hobj) as [ds ->].
      assert (Ht : truthy messages = true).
      { rewrite Hm. destruct ds; [contradiction|reflexivity]. }
      assert (Hg : dict_get d (u "messages") = Some (JList (List.map JDict ds))).
      { rewrite <- Hm. apply get_truthy; [reflexivity | exact Ht]. }
      rewrite Hm in Ht. eexists.
      apply (@handle_chat_completions_prompt format_value slice_error cls clk
               _ _ _ Hg Ht (messages_to_prompt_objects ds)). }
  assert (Hbad : status_of answer = 400 <-> truthy messages = false).
  { split.
    - intros H. destruct (truthy messages) eqn:Ht; [|reflexivity]. exfalso.
      assert (Hg : dict_get d (u "messages") = Some messages)
        by (apply get_truthy; [reflexivity | exact Ht]).
      destruct (messages_to_prompt format_value messages) as [p|msg] eqn:Hp.
      + subst answer.
        rewrite (@handle_chat_completions_prompt format_value slice_error cls clk
                   _ _ _ Hg Ht Hp) in H. discriminate H.
      + subst answer. rewrite (chat_raises cls clk d _ _ Hg Ht Hp) in H.
        discriminate H.
    - intros Hf. subst answer. unfold handle_chat_completions.
      cbn [bind as_dict catch_500]. fold messages. rewrite Hf. reflexivity. }
  split; [exact Hbad|]. split; [exact Hpayload|].
  split.
  - intros [msg H]. split.
    + destruct (truthy messages) eqn:Ht; [reflexivity|].
      pose proof (proj2 Hbad eq_refl) as H4. rewrite H in H4. discriminate H4.
    + intros Hex. apply Hpayload in Hex as [data Hd].
      rewrite H in Hd. discriminate Hd.
  - intros [Ht Hno].
    destruct (handle_chat_completions_cases format_value slice_error cls clk
                (Ok (JDict d))) as [Hd|[H4|H5]].
    + exfalso. apply Hno, Hpayload. exact Hd.
    + exfalso.
      assert (H : status_of answer = 400) by (subst answer; now rewrite H4).
      apply Hbad in H. rewrite Ht in H. discriminate H.
    + exact H5.
Qed.

(** X5. What the chat handler answers to unusable messages: 500, with
    the message of the first element of the list that is not an object;
    with that of a string when [messages] is itself a string or an
    object, non-empty, whose characters or keys the loop then meets; with
    "not iterable" when it is a number or [true]. *)
Theorem chat_unusable_messages (cls : handler_class) (clk : clock) (d : dict)
    (messages : json) :
  dict_get d (u "messages") = Some messages ->
  let answer :=
    handle_chat_completions format_value slice_error cls clk (Ok (JDict d)) in
  (forall pre v post,
     messages = JList (pre ++ v :: post) ->
     forallb is_object pre = true -> is_object v = false ->
     answer = SendError 500 (u "Internal server error: '" ++ type_name v ++
                             u "' object has no attribute 'get'")) /\
  (truthy messages = true ->
   (exists s, messages = JStr s) \/ (exists o, messages = JDict o) ->
   answer = SendError 500
     (u "Internal server error: 'str' object has no attribute 'get'")) /\
  (truthy messages = true ->
   (exists b, messages = JBool b) \/ (exists z, messages = JInt z) \/
   (exists f, messages = JFloat f) ->
   answer = SendError 500 (u "Internal server error: '" ++ type_name messages ++
                           u "' object is not iterable")).
Proof.
  intros Hm answer. subst answer. split; [|split].
  - intros pre v post -> Hpre Hv.
    apply (chat_raises cls clk d _ _ Hm).
    + destruct pre; reflexivity.
    + destruct (objects_are_dicts _ Hpre) as [ds ->].
      unfold messages_to_prompt. cbn [iterate bind].
      rewrite for_each_message_app, for_each_message_objects. cbn [bind].
      cbn [for_each_message]. rewrite (append_part_not_object _ v Hv).
      reflexivity.
  - intros Ht [[s ->]|[o ->]].
    + apply (chat_raises cls clk d _ _ Hm Ht).
      destruct s as [|c s]; [discriminate Ht | reflexivity].
    + apply (chat_raises cls clk d _ _ Hm Ht).
      destruct o as [|[k v] o]; [discriminate Ht | reflexivity].
  - intros Ht [[b ->]|[[z ->]|[f ->]]];
      apply (chat_raises cls clk d _ _ Hm Ht); reflexivity.
Qed.

(** X6. For a list of objects the flattening never fails, whatever the
    objects hold. The prompt has one line for each message that speaks
    (role system, user or assistant, or no role: user), in order: its
    label and its content, the empty string for a missing content and
    the rendering of [str] for a content that is not a string. The line
    [Assistant:] closes it. *)
Theorem flattening_of_objects (ds : list dict) :
  messages_to_prompt format_value (JList (List.map JDict ds)) =
  Ok (join (u newline) (lines_of format_value ds ++ [u "Assistant:"])) /\
  List.length (lines_of format_value ds) <= List.length ds.
Proof.
  split; [apply messages_to_prompt_objects|].
  induction ds as [|d ds IH]; [apply le_n|].
  rewrite lines_of_cons, length_app. cbn [List.length].
  unfold lines_of at 1. cbn [flat_map]. rewrite app_nil_r.
  destruct (speaker d); cbn [List.length]; lia.
Qed.

End ChatMessages.

(** ** Optional parameters *)

Section OptionalParameters.

Variable format_value : json -> pystr.
Variable slice_error : json -> pystr.





(** Values other than the defaults are told apart: the equality that
    follows is about the defaults, not about any value. *)
Lemma other_values_are_told_apart :
  handle_completions_with sample_generate sample_loaded_class sample_clock
    (Ok (JDict (sample_completion_request ++ [(u "max_tokens", JInt 16)]))) <>
  handle_completions_with sample_generate sample_loaded_class sample_clock
    (Ok (JDict sample_completion_request)).
Proof. intros H. vm_compute in H. discriminate H. Qed.


End OptionalParameters.

(** ** Token counts at the edges *)

Lemma number_of_words_zero (s : pystr) :
  number_of_words s = 0 <-> forallb isspace s = true.
Proof.
  unfold number_of_words. induction s as [|c s IH]; [now split|].
  cbn [word_starts forallb]. destruct (isspace c); cbn [andb].
  - exact IH.
  - split; discriminate.
Qed.

Lemma join_snoc (sep : pystr) (parts : list pystr) (last : pystr) :
  exists front, join sep (parts ++ [last]) = front ++ last.
Proof.
  induction parts as [|p parts [front IH]].
  - exists []. reflexivity.
  - exists (p ++ sep ++ front).
    change (join sep ((p :: parts) ++ [last])) with (join sep (p :: parts ++ [last])).
    destruct (parts ++ [last]) as [|q rest] eqn:E.
    + destruct parts; discriminate E.
    + cbn [join]. cbn [join] in IH. rewrite IH, <- !app_assoc. reflexivity.
Qed.

Section TokenEdges.

Variable format_value : json -> pystr.
Variable slice_error : json -> pystr.

Lemma messages_to_prompt_cue (messages : json) (prompt : pystr) :
  messages_to_prompt format_value messages = Ok prompt ->
  exists front, prompt = front ++ u "Assistant:".
Proof.
  unfold messages_to_prompt. intros H.
  destruct (iterate messages) as [msgs|e]; [|discriminate H].
  cbn [bind] in H.
  destruct (for_each_message format_value msgs []) as [parts|e];
    [|discriminate H].
  cbn [bind] in H. injection H as <-. apply join_snoc.
Qed.

(** X7. The completions handler rejects an empty prompt but not a blank
    one: a prompt that is a non-empty string gets a payload, and its
    [usage.prompt_tokens] is 0 exactly when the prompt is whitespace
    only. *)
Theorem blank_prompt_counts_zero (cls : handler_class) (clk : clock) (d : dict)
    (prompt : pystr) :
  dict_get d (u "prompt") = Some (JStr prompt) -> prompt <> [] ->
  exists data,
    handle_completions format_value slice_error cls clk (Ok (JDict d)) =
      SendJson 200 data /\
    (usage data (u "prompt_tokens") = Some (JInt 0) <->
     forallb isspace prompt = true).
Proof.
  intros Hp Hne. eexists. split.
  - apply (@handle_completions_str format_value slice_error cls clk _ _ Hp Hne).
  - change (Some (JInt (word_count prompt)) = Some (JInt 0) <->
            forallb isspace prompt = true).
    rewrite word_count_spec, <- number_of_words_zero. split.
    + intros H. injection H as H. lia.
    + intros ->. reflexivity.
Qed.

(** X8. A chat payload never reports zero prompt tokens: the flattened
    prompt ends with the cue [Assistant:], so [usage.prompt_tokens] is at
    least 1, whatever the messages say. *)
Theorem chat_prompt_tokens_positive (cls : handler_class) (clk : clock)
    (payload : result json) (data : json) :
  handle_chat_completions format_value slice_error cls clk payload =
    SendJson 200 data ->
  exists d messages front n,
    payload = Ok (JDict d) /\
    dict_get d (u "messages") = Some messages /\
    messages_to_prompt format_value messages = Ok (front ++ u "Assistant:") /\
    usage data (u "prompt_tokens") = Some (JInt n) /\ (1 <= n)%Z.
Proof.
  intros H.
  destruct (handle_chat_completions_inv _ _ _ _ _ H)
    as (d & messages & p & -> & Hm & Ht & Hp).
  rewrite (@handle_chat_completions_prompt format_value slice_error cls clk
             _ _ _ Hm Ht Hp) in H.
  injection H as <-.
  destruct (messages_to_prompt_cue _ _ Hp) as [front ->].
  exists d, messages, front, (word_count (front ++ u "Assistant:")).
  repeat split; try assumption.
  rewrite word_count_spec.
  destruct (number_of_words (front ++ u "Assistant:")) eqn:E; [|lia].
  apply number_of_words_zero in E. rewrite forallb_app in E.
  apply andb_true_iff in E as [_ E]. vm_compute in E. discriminate E.
Qed.

End TokenEdges.

(** ** The generated text *)

Section GeneratedText.

Variable format_value : json -> pystr.
Variable slice_error : json -> pystr.

Lemma generate_text_ignores (prompt a b c a' b' c' : json) :
  generate_text format_value slice_error prompt a b c =
  generate_text format_value slice_error prompt a' b' c'.
Proof. destruct prompt; reflexivity. Qed.

(** X9. The text generated for a string prompt shows its first 50
    characters and nothing else of it: two prompts get the same text
    exactly when they agree on their first 50 characters. The text has
    29 characters around that prefix, and a prompt of at most 50
    characters appears whole, still followed by the dots. *)
Theorem generated_text_reads_prefix (p q : pystr)
    (max_tokens temperature top_p max_tokens' temperature' top_p' : json) :
  let text := generate_text format_value slice_error (JStr p)
                max_tokens temperature top_p in
  (text = generate_text format_value slice_error (JStr q)
            max_tokens' temperature' top_p' <->
   firstn 50 p = firstn 50 q) /\
  List.length text = 29 + Nat.min 50 (List.length p) /\
  (List.length p <= 50 -> text = u "[Generated response for: " ++ p ++ u "...]").
Proof.
  intros text. subst text. unfold generate_text, prefix. repeat split.
  - intros H. apply app_inv_head in H. now apply app_inv_tail in H.
  - now intros ->.
  - rewrite !length_app, length_firstn.
    change (List.length (u "[Generated response for: ")) with 25.
    change (List.length (u "...]")) with 4. lia.
  - intros Hlen. now rewrite firstn_all2.
Qed.

(** X10. Of a request object, the completions handler reads the prompt
    only and the chat handler the messages only: two objects that agree
    there get the same answer, whatever else they hold, the optional
    parameters and their types included. *)
Theorem only_prompt_is_read (cls : handler_class) (clk : clock) (d d' : dict) :
  (dict_get d (u "prompt") = dict_get d' (u "prompt") ->
   handle_completions format_value slice_error cls clk (Ok (JDict d)) =
   handle_completions format_value slice_error cls clk (Ok (JDict d'))) /\
  (dict_get d (u "messages") = dict_get d' (u "messages") ->
   handle_chat_completions format_value slice_error cls clk (Ok (JDict d)) =
   handle_chat_completions format_value slice_error cls clk (Ok (JDict d'))).
Proof.
  split; intros H.
  - unfold handle_completions. cbn [bind as_dict].
    assert (E : get d (u "prompt") (JStr []) = get d' (u "prompt") (JStr []))
      by (unfold get; now rewrite H).
    rewrite E.
    rewrite (generate_text_ignores (get d' (u "prompt") (JStr []))
               (get d (u "max_tokens") (JInt 100))
               (get d (u "temperature") (JFloat float_one))
               (get d (u "top_p") (JFloat float_one))
               (get d' (u "max_tokens") (JInt 100))
               (get d' (u "temperature") (JFloat float_one))
               (get d' (u "top_p") (JFloat float_one))).
    reflexivity.
  - unfold handle_chat_completions. cbn [bind as_dict].
    assert (E : get d (u "messages") (JList []) = get d' (u "messages") (JList []))
      by (unfold get; now rewrite H).
    rewrite E.
    destruct (truthy (get d' (u "messages") (JList []))); [|reflexivity].
    cbn [negb].
    destruct (messages_to_prompt format_value (get d' (u "messages") (JList [])))
      as [p|e]; [|reflexivity].
    cbn [bind].
    rewrite (generate_text_ignores (JStr p)
               (get d (u "max_tokens") (JInt 100))
               (get d (u "temperature") (JFloat float_one))
               (get d (u "top_p") (JFloat float_one))
               (get d' (u "max_tokens") (JInt 100))
               (get d' (u "temperature") (JFloat float_one))
               (get d' (u "top_p") (JFloat float_one))).
    reflexivity.
Qed.

End GeneratedText.

(** ** The server over a run *)

Section Runs.

Variable format_value : json -> pystr.
Variable slice_error : json -> pystr.

(** X11. The requests do not act on one another: in any sequence, the
    answer to a request is the one it gets alone, whatever came before,
    and the class attributes are after the sequence what they were
    before it. *)
Theorem requests_are_independent (cls : handler_class)
    (before after : list (clock * request)) (clk : clock) (req : request) :
  serve_forever format_value slice_error cls (before ++ (clk, req) :: after) =
  (cls,
   snd (serve_forever format_value slice_error cls before) ++
   snd (handle_one_request format_value slice_error cls clk req) ::
   snd (serve_forever format_value slice_error cls after)).
Proof.
  rewrite !serve_forever_trace. cbn [snd].
  now rewrite map_app.
Qed.

(** X12. Of the command line and the file system, start-up keeps the
    model name only: host, port, engine directory and model directory,
    and whether the engine directory exists, change neither the class
    attributes nor any answer. *)
Theorem start_up_keeps_model_name (path_exists path_exists' : pystr -> bool)
    (cl cl' : command_line) :
  opt_model_name cl = opt_model_name cl' ->
  main path_exists cl = main path_exists' cl' /\
  forall reqs,
    run format_value slice_error path_exists cl reqs =
    run format_value slice_error path_exists' cl' reqs.
Proof.
  intros H.
  assert (E : main path_exists cl = main path_exists' cl')
    by (rewrite !main_class; now rewrite H).
  split; [exact E|]. intros reqs. unfold run. now rewrite E.
Qed.

(** X13. In any run, a payload sent for a POST carries the model name
    given at start-up ("gpt-oss-20b" when none is given), not a model
    the request names, the time of the request, and an [id] made of the
    request's UUID after [cmpl-] with [object] "text_completion", or
    after [chatcmpl-] with [object] "chat.completion", by the path. *)
Theorem payload_envelope (path_exists : pystr -> bool) (cl : command_line)
    (reqs : list (clock * request)) :
  Forall2 (fun cr resp =>
      forall data,
        req_command (snd cr) = POST -> resp = SendJson 200 data ->
        field data (u "model") =
          Some (JStr (or_default (opt_model_name cl) (u "gpt-oss-20b"))) /\
        field data (u "created") = Some (JInt (time_now (fst cr))) /\
        ((req_path (snd cr) = u "/v1/completions" /\
          field data (u "id") = Some (JStr (u "cmpl-" ++ uuid4_hex (fst cr))) /\
          field data (u "object") = Some (JStr (u "text_completion"))) \/
         (req_path (snd cr) = u "/v1/chat/completions" /\
          field data (u "id") = Some (JStr (u "chatcmpl-" ++ uuid4_hex (fst cr))) /\
          field data (u "object") = Some (JStr (u "chat.completion")))))
    reqs (snd (run format_value slice_error path_exists cl reqs)).
Proof.
  unfold run. rewrite serve_forever_trace, main_class. cbn [snd].
  apply Forall2_map_r. intros [clk req] data. cbn [fst snd].
  unfold handle_one_request. intros -> H. cbn [snd] in H.
  destruct (in_routes_dec (req_path req) post_routes) as [Hin|Hout].
  - unfold post_routes in Hin. cbn [In] in Hin.
    destruct Hin as [Hp|[Hp|[]]]; rewrite <- Hp in *.
    + change (do_POST _ _ ?c clk _ (req_payload req))
        with (handle_completions format_value slice_error c clk (req_payload req))
        in H.
      destruct (handle_completions_inv _ _ _ _ _ H) as (d & p & E & Hd & Hne).
      rewrite E in H.
      rewrite (@handle_completions_str format_value slice_error _ clk _ _ Hd Hne)
        in H.
      injection H as <-. split; [reflexivity|]. split; [reflexivity|].
      left. repeat split; reflexivity.
    + change (do_POST _ _ ?c clk _ (req_payload req))
        with (handle_chat_completions format_value slice_error c clk
                (req_payload req)) in H.
      destruct (handle_chat_completions_inv _ _ _ _ _ H)
        as (d & messages & p & E & Hm & Ht & Hq).
      rewrite E in H.
      rewrite (@handle_chat_completions_prompt format_value slice_error _ clk
                 _ _ _ Hm Ht Hq) in H.
      injection H as <-. split; [reflexivity|]. split; [reflexivity|].
      right. repeat split; reflexivity.
  - rewrite (do_POST_unrouted format_value slice_error _ clk _ _ Hout) in H.
    discriminate H.
Qed.

(** X14. What [GET /] advertises is what the router serves: each entry
    of its [endpoints] is a method and a path that the method does not
    answer with 404, and each route but [/] itself is among the
    entries. *)
Theorem advertised_endpoints_are_served (cls : handler_class) (clk : clock)
    (payload : result json) :
  (forall entry,
     In entry advertised_endpoints ->
     exists path,
       (entry = JStr (u "GET " ++ path) /\
        exists data, do_GET cls clk path = SendJson 200 data) \/
       (entry = JStr (u "POST " ++ path) /\
        do_POST format_value slice_error cls clk path payload <>
        SendError 404 (u "Not Found"))) /\
  (forall path,
     In path [u "/v1/models"; u "/health"] ->
     In (JStr (u "GET " ++ path)) advertised_endpoints) /\
  (forall path,
     In path [u "/v1/completions"; u "/v1/chat/completions"] ->
     In (JStr (u "POST " ++ path)) advertised_endpoints).
Proof.
  assert (Hpost : forall path, In path post_routes ->
    do_POST format_value slice_error cls clk path payload <>
    SendError 404 (u "Not Found")).
  { intros path Hin H.
    destruct (do_POST_cases format_value slice_error cls clk path payload Hin)
      as [[data Hd]|[[msg Hd]|[msg Hd]]]; rewrite Hd in H; discriminate H. }
  split; [|split].
  - intros entry Hin.
    change advertised_endpoints with
      [JStr (u "GET " ++ u "/v1/models");
       JStr (u "POST " ++ u "/v1/completions");
       JStr (u "POST " ++ u "/v1/chat/completions");
       JStr (u "GET " ++ u "/health")] in Hin.
    cbn [In] in Hin. destruct Hin as [<-|[<-|[<-|[<-|[]]]]].
    + exists (u "/v1/models"). left. split; [reflexivity|].
      apply do_GET_routed. unfold get_routes. cbn [In]. tauto.
    + exists (u "/v1/completions"). right. split; [reflexivity|].
      apply Hpost. unfold post_routes. cbn [In]. tauto.
    + exists (u "/v1/chat/completions"). right. split; [reflexivity|].
      apply Hpost. unfold post_routes. cbn [In]. tauto.
    + exists (u "/health"). left. split; [reflexivity|].
      apply do_GET_routed. unfold get_routes. cbn [In]. tauto.
  - intros path Hin. cbn [In] in Hin.
    destruct Hin as [<-|[<-|[]]]; vm_compute; tauto.
  - intros path Hin. cbn [In] in Hin.
    destruct Hin as [<-|[<-|[]]]; vm_compute; tauto.
Qed.

End Runs.

(** ** How the messages count *)

Lemma word_starts_space (after_space : bool) (s t : pystr) (c : N) :
  isspace c = true ->
  word_starts after_space (s ++ c :: t) =
  word_starts after_space s + word_starts true t.
Proof.
  intros Hc. revert after_space.
  induction s as [|x s IH]; intros after_space.
  - cbn [app word_starts]. now rewrite Hc.
  - cbn [app word_starts]. destruct (isspace x); rewrite IH; lia.
Qed.

Lemma number_of_words_join (lines : list pystr) (last : pystr) :
  number_of_words (join (u newline) (lines ++ [last])) =
  list_sum (List.map number_of_words lines) + number_of_words last.
Proof.
  induction lines as [|l lines IH]; [reflexivity|].
  change (join (u newline) ((l :: lines) ++ [last]))
    with (join (u newline) (l :: lines ++ [last])).
  destruct (lines ++ [last]) as [|q rest] eqn:E.
  - destruct lines; discriminate E.
  - change (join (u newline) (l :: q :: rest))
      with (l ++ 10%N :: join (u newline) (q :: rest)).
    unfold number_of_words at 1.
    rewrite (word_starts_space true l _ 10%N eq_refl).
    fold (number_of_words l).
    fold (number_of_words (join (u newline) (q :: rest))).
    rewrite IH. cbn [List.map]. unfold list_sum. cbn [fold_right]. lia.
Qed.

Lemma number_of_words_label (r : role) (content : pystr) :
  number_of_words (role_label r ++ content) = 1 + number_of_words content.
Proof.
  unfold number_of_words. destruct r.
  - change (role_label System ++ content) with (u "System:" ++ 32%N :: content).
    now rewrite (word_starts_space true _ _ 32%N eq_refl).
  - change (role_label User ++ content) with (u "User:" ++ 32%N :: content).
    now rewrite (word_starts_space true _ _ 32%N eq_refl).
  - change (role_label Assistant ++ content)
      with (u "Assistant:" ++ 32%N :: content).
    now rewrite (word_starts_space true _ _ 32%N eq_refl).
Qed.

Section MessageWords.

Variable format_value : json -> pystr.
Variable slice_error : json -> pystr.

Lemma words_of_line (d : dict) :
  list_sum (List.map number_of_words (lines_of format_value [d])) =
  spoken_words format_value [d].
Proof.
  unfold lines_of, spoken_words. cbn [flat_map List.map]. rewrite app_nil_r.
  destruct (speaker d) as [r|]; [|reflexivity].
  cbn [List.map]. unfold list_sum. cbn [fold_right].
  now rewrite number_of_words_label.
Qed.

Lemma spoken_words_cons (d : dict) (ds : list dict) :
  spoken_words format_value (d :: ds) =
  spoken_words format_value [d] + spoken_words format_value ds.
Proof. unfold spoken_words, list_sum. cbn [List.map fold_right]. lia. Qed.

Lemma words_of_lines (ds : list dict) :
  list_sum (List.map number_of_words (lines_of format_value ds)) =
  spoken_words format_value ds.
Proof.
  induction ds as [|d ds IH]; [reflexivity|].
  rewrite lines_of_cons, map_app, list_sum_app, IH, words_of_line.
  now rewrite (spoken_words_cons d ds).
Qed.

(** X15. How a chat request is counted: for a non-empty list of
    objects, [usage.prompt_tokens] is 1, for the closing cue, plus for
    each message that speaks 1, for its label, and the number of words
    of its content. Messages with an unknown role count for nothing. *)
Theorem chat_prompt_tokens_by_message (cls : handler_class) (clk : clock)
    (d : dict) (ds : list dict) :
  dict_get d (u "messages") = Some (JList (List.map JDict ds)) -> ds <> [] ->
  exists data,
    handle_chat_completions format_value slice_error cls clk (Ok (JDict d)) =
      SendJson 200 data /\
    usage data (u "prompt_tokens") =
      Some (JInt (Z.of_nat (1 + spoken_words format_value ds))).
Proof.
  intros Hm Hne.
  assert (Ht : truthy (JList (List.map JDict ds)) = true)
    by (destruct ds; [contradiction | reflexivity]).
  eexists. split.
  - apply (@handle_chat_completions_prompt format_value slice_error cls clk
             _ _ _ Hm Ht (messages_to_prompt_objects format_value ds)).
  - change (Some (JInt (word_count
              (join (u newline) (lines_of format_value ds ++ [u "Assistant:"])))) =
            Some (JInt (Z.of_nat (1 + spoken_words format_value ds)))).
    rewrite word_count_spec, number_of_words_join, words_of_lines.
    change (number_of_words (u "Assistant:")) with 1.
    do 3 f_equal. lia.
Qed.

End MessageWords.

(** ** The further properties on the sample inputs *)

Lemma not_found_iff_unrouted_witness :
  do_GET OpenAIHandler sample_clock (u "/v1/completions") =
    SendError 404 (u "Not Found") /\
  do_POST sample_format sample_slice_error OpenAIHandler sample_clock
    (u "/health") (Ok (JDict sample_completion_request)) =
    SendError 404 (u "Not Found").
Proof.
  split.
  - apply (not_found_iff_unrouted sample_format sample_slice_error OpenAIHandler
             sample_clock (u "/v1/completions") (Raise [])).
    cbn [In]. tauto.
  - apply (not_found_iff_unrouted sample_format sample_slice_error OpenAIHandler
             sample_clock (u "/health") (Ok (JDict sample_completion_request))).
    cbn [In]. tauto.
Defined.

Lemma answer_statuses_witness :
  In (status_of (snd (handle_one_request sample_format sample_slice_error
        OpenAIHandler sample_clock
        {| req_command := GET; req_path := u "/v1/completions";
           req_payload := Ok (JDict sample_completion_request) |})))
     [200; 404].
Proof.
  apply (answer_statuses sample_format sample_slice_error OpenAIHandler
           sample_clock
           {| req_command := GET; req_path := u "/v1/completions";
              req_payload := Ok (JDict sample_completion_request) |}).
  reflexivity.
Defined.

Lemma unusable_body_is_500_witness :
  handle_completions sample_format sample_slice_error OpenAIHandler sample_clock
    (Ok (JList [])) =
  SendError 500 (u "Internal server error: 'list' object has no attribute 'get'").
Proof.
  apply (proj2 (unusable_body_is_500 sample_format sample_slice_error
                  OpenAIHandler sample_clock) (JList [])).
  reflexivity.
Defined.

Lemma chat_answer_by_messages_witness :
  exists data,
    handle_chat_completions sample_format sample_slice_error OpenAIHandler
      sample_clock (Ok (JDict sample_chat_request)) = SendJson 200 data.
Proof.
  apply (chat_answer_by_messages sample_format sample_slice_error OpenAIHandler
           sample_clock sample_chat_request).
  exists sample_messages. repeat split; solve [reflexivity | discriminate].
Defined.

Lemma chat_unusable_messages_witness :
  handle_chat_completions sample_format sample_slice_error OpenAIHandler
    sample_clock (Ok (JDict [(u "messages", JList [JDict []; JInt 3])])) =
  SendError 500 (u "Internal server error: 'int' object has no attribute 'get'").
Proof.
  apply (proj1 (chat_unusable_messages sample_format sample_slice_error
                  OpenAIHandler sample_clock
                  [(u "messages", JList [JDict []; JInt 3])]
                  (JList [JDict []; JInt 3]) eq_refl)
           [JDict []] (JInt 3) []);
    reflexivity.
Defined.

Lemma blank_prompt_counts_zero_witness :
  exists data,
    handle_completions sample_format sample_slice_error OpenAIHandler
      sample_clock (Ok (JDict [(u "prompt", JStr (u "   "))])) =
      SendJson 200 data /\
    usage data (u "prompt_tokens") = Some (JInt 0).
Proof.
  destruct (blank_prompt_counts_zero sample_format sample_slice_error
              OpenAIHandler sample_clock [(u "prompt", JStr (u "   "))]
              (u "   ") eq_refl)
    as (data & H & Hzero); [discriminate|].
  exists data. split; [exact H|]. apply Hzero. reflexivity.
Defined.

Lemma chat_prompt_tokens_positive_witness :
  exists n,
    usage (payload_of (handle_chat_completions sample_format sample_slice_error
             OpenAIHandler sample_clock
             (Ok (JDict [(u "messages", JList [sample_tool_message])]))))
      (u "prompt_tokens") = Some (JInt n) /\ (1 <= n)%Z.
Proof.
  destruct (chat_prompt_tokens_positive sample_format sample_slice_error
              OpenAIHandler sample_clock
              (Ok (JDict [(u "messages", JList [sample_tool_message])]))
              _ eq_refl)
    as (d & messages & front & n & _ & _ & _ & Hu & Hn).
  exists n. split; assumption.
Defined.

Lemma generated_text_reads_prefix_witness :
  generate_text sample_format sample_slice_error
    (JStr (u "0123456789012345678901234567890123456789012345678901234"))
    (JInt 100) (JFloat float_one) (JFloat float_one) =
  generate_text sample_format sample_slice_error
    (JStr (u "01234567890123456789012345678901234567890123456789 and more"))
    (JInt 5) JNull JNull /\
  generate_text sample_format sample_slice_error (JStr (u "Hello world"))
    (JInt 100) (JFloat float_one) (JFloat float_one) =
  u "[Generated response for: Hello world...]".
Proof.
  split.
  - apply (generated_text_reads_prefix sample_format sample_slice_error
             (u "0123456789012345678901234567890123456789012345678901234")
             (u "01234567890123456789012345678901234567890123456789 and more")
             (JInt 100) (JFloat float_one) (JFloat float_one)
             (JInt 5) JNull JNull).
    reflexivity.
  - apply (generated_text_reads_prefix sample_format sample_slice_error
             (u "Hello world") (u "Hello world")
             (JInt 100) (JFloat float_one) (JFloat float_one)
             (JInt 100) (JFloat float_one) (JFloat float_one)).
    vm_compute. repeat constructor.
Defined.

Lemma only_prompt_is_read_witness :
  handle_completions sample_format sample_slice_error sample_loaded_class
    sample_clock (Ok (JDict sample_completion_request)) =
  handle_completions sample_format sample_slice_error sample_loaded_class
    sample_clock
    (Ok (JDict [(u "model", JStr (u "another-model"));
                (u "max_tokens", JStr (u "many"));
                (u "prompt", JStr (u "Hello world"))])).
Proof.
  apply (only_prompt_is_read sample_format sample_slice_error sample_loaded_class
           sample_clock sample_completion_request
           [(u "model", JStr (u "another-model"));
            (u "max_tokens", JStr (u "many"));
            (u "prompt", JStr (u "Hello world"))]).
  reflexivity.
Defined.

Lemma start_up_keeps_model_name_witness :
  main (fun _ => true) sample_command_line =
  main (fun _ => false)
    {| opt_host := Some (u "127.0.0.1"); opt_port := Some 9000%Z;
       opt_engine_dir := None; opt_model_dir := Some (u "/models");
       opt_model_name := None |}.
Proof.
  apply (start_up_keeps_model_name sample_format sample_slice_error
           (fun _ => true) (fun _ => false) sample_command_line
           {| opt_host := Some (u "127.0.0.1"); opt_port := Some 9000%Z;
              opt_engine_dir := None; opt_model_dir := Some (u "/models");
              opt_model_name := None |}).
  reflexivity.
Defined.

Lemma payload_envelope_witness :
  let resps := snd (run sample_format sample_slice_error (fun _ => true)
                      sample_command_line sample_requests) in
  field (payload_of (nth 2 resps (SendError 0 []))) (u "model") =
    Some (JStr (u "gpt-oss-20b")) /\
  field (payload_of (nth 2 resps (SendError 0 []))) (u "id") =
    Some (JStr (u "cmpl-9f1c2ab4")).
Proof.
  intros resps.
  pose proof (payload_envelope sample_format sample_slice_error (fun _ => true)
                sample_command_line sample_requests) as Hall.
  fold resps in Hall.
  assert (E : resps = hd (SendError 0 []) resps ::
                      nth 1 resps (SendError 0 []) ::
                      nth 2 resps (SendError 0 []) :: tl (tl (tl resps)))
    by reflexivity.
  rewrite E in Hall. unfold sample_requests in Hall.
  apply Forall2_cons_iff in Hall. destruct Hall as [_ Hall].
  apply Forall2_cons_iff in Hall. destruct Hall as [_ Hall].
  apply Forall2_cons_iff in Hall. destruct Hall as [Hthird _].
  destruct (Hthird (payload_of (nth 2 resps (SendError 0 []))) eq_refl eq_refl)
    as (Hmodel & _ & [(_ & Hid & _)|(Hpath & _)]).
  - split; [exact Hmodel | exact Hid].
  - discriminate Hpath.
Defined.

Lemma advertised_endpoints_are_served_witness :
  In (JStr (u "GET /health")) advertised_endpoints /\
  In (JStr (u "POST /v1/chat/completions")) advertised_endpoints.
Proof.
  destruct (advertised_endpoints_are_served sample_format sample_slice_error
              OpenAIHandler sample_clock (Raise []))
    as (_ & Hget & Hpost).
  split.
  - apply (Hget (u "/health")). cbn [In]. tauto.
  - apply (Hpost (u "/v1/chat/completions")). cbn [In]. tauto.
Defined.

Lemma chat_prompt_tokens_by_message_witness :
  exists data,
    handle_chat_completions sample_format sample_slice_error OpenAIHandler
      sample_clock
      (Ok (JDict [(u "messages",
                   JList (sample_tool_message :: sample_messages))])) =
      SendJson 200 data /\
    usage data (u "prompt_tokens") = Some (JInt 6).
Proof.
  apply (chat_prompt_tokens_by_message sample_format sample_slice_error
           OpenAIHandler sample_clock
           [(u "messages", JList (sample_tool_message :: sample_messages))]
           [[(u "role", JStr (u "tool")); (u "content", JStr (u "42"))];
            [(u "role", JStr (u "system")); (u "content", JStr (u "Be terse."))];
            [(u "role", JStr (u "user")); (u "content", JStr (u "Hi"))]]).
  - reflexivity.
  - discriminate.
Defined.

